(** * mrjob.fs.s3: the S3 filesystem, embedded and checked against its specification

    The development follows [mrjob/fs/s3.py].  Python strings are [string];
    [None]-able values are [option]; integers are [Z].  A method that talks
    to S3, logs or raises runs in the monad [M]: a state monad over [World]
    (the service, the modules that could be imported, the log) whose result
    is a value or a raised exception. *)

From Stdlib Require Import String Ascii List ZArith Bool Lia.
Import ListNotations.
Open Scope string_scope.

(* ================================================================== *)
(** ** Python strings *)

Module Py.

(** [s.endswith(suffix)] *)
Definition endswith (s suffix : string) : bool :=
  let n := String.length s in
  let m := String.length suffix in
  if Nat.leb m n then String.eqb (substring (n - m) m s) suffix else false.

(** [needle in hay], for two strings *)
Fixpoint contains (needle hay : string) : bool :=
  prefix needle hay ||
  match hay with
  | EmptyString => false
  | String _ rest => contains needle rest
  end.

(** truth value of a [str]-or-[None] *)
Definition truthy (v : option string) : bool :=
  match v with
  | Some (String _ _) => true
  | _ => false
  end.

(** [a or b] where both are [str]-or-[None] *)
Definition or_ (a b : option string) : option string :=
  if truthy a then a else b.

(** [any(c == x for x in chars)] *)
Definition char_in (c : ascii) (chars : list ascii) : bool :=
  existsb (Ascii.eqb c) chars.

(** the text before the first character of [stop], and the text from that
    character on; [None] when no character of [stop] occurs *)
Fixpoint break_at (stop : list ascii) (s : string) : option (string * string) :=
  match s with
  | EmptyString => None
  | String c rest =>
      if char_in c stop then Some (EmptyString, s)
      else match break_at stop rest with
           | Some (before, from) => Some (String c before, from)
           | None => None
           end
  end.

(** [s[len(p):]] when [s.startswith(p)] *)
Fixpoint strip_prefix (p s : string) : option string :=
  match p with
  | EmptyString => Some s
  | String a p' =>
      match s with
      | EmptyString => None
      | String b s' => if Ascii.eqb a b then strip_prefix p' s' else None
      end
  end.

(** [s.split(sep, 1)] when [sep] occurs: the text before the first
    occurrence of [sep] and the text after it *)
Fixpoint split_once (sep s : string) : option (string * string) :=
  match strip_prefix sep s with
  | Some after => Some (EmptyString, after)
  | None =>
      match s with
      | EmptyString => None
      | String c rest =>
          match split_once sep rest with
          | Some (before, after) => Some (String c before, after)
          | None => None
          end
      end
  end.

End Py.

(* ================================================================== *)
(** ** fnmatch.fnmatchcase

    The standard library's shell-style matcher, as [fnmatch.translate]
    builds it: [*] matches any text, [?] any one character, [[seq]] one
    character of [seq] ([[!seq]] one character not in it), an unclosed
    [[] stands for itself, every other character stands for itself.
    The comparison is case-sensitive and [*] and [?] also match [/]. *)

Module Fnmatch.

Inductive Tok : Type :=
| TStar
| TAny
| TSet (negate : bool) (stuff : string)
| TLit (c : ascii).

(** the text up to the first [']'], when there is one *)
Fixpoint until_rbracket (s : string) : option string :=
  match s with
  | EmptyString => None
  | String c rest =>
      if Ascii.eqb c "]" then Some EmptyString
      else option_map (String c) (until_rbracket rest)
  end.

(** [pat[i:j]] for the bracket opened just before [rest]: an optional
    ['!'], an optional [']'] taken literally, then everything up to the
    closing [']']; [None] when the bracket is never closed *)
Definition bracket_stuff (rest : string) : option string :=
  let '(bang, r1) :=
    match rest with
    | String "!" r => ("!", r)
    | _ => ("", rest)
    end in
  let '(rb, r2) :=
    match r1 with
    | String "]" r => ("]", r)
    | _ => ("", r1)
    end in
  option_map (fun mid => bang ++ rb ++ mid) (until_rbracket r2).

Definition mk_set (stuff : string) : Tok :=
  match stuff with
  | String "!" members => TSet true members
  | _ => TSet false stuff
  end.

(** [translate]: [skip] counts the characters of a bracket expression
    already consumed (the source's [i = j+1]) *)
Fixpoint translate (skip : nat) (pat : string) : list Tok :=
  match pat with
  | EmptyString => []
  | String c rest =>
      match skip with
      | S n => translate n rest
      | O =>
          if Ascii.eqb c "*" then TStar :: translate 0 rest
          else if Ascii.eqb c "?" then TAny :: translate 0 rest
          else if Ascii.eqb c "[" then
            match bracket_stuff rest with
            | None => TLit "[" :: translate 0 rest
            | Some stuff => mk_set stuff :: translate (S (String.length stuff)) rest
            end
          else TLit c :: translate 0 rest
      end
  end.

Definition ascii_le (a b : ascii) : bool :=
  Nat.leb (nat_of_ascii a) (nat_of_ascii b).

(** membership in the inside of a bracket expression: [lo-hi] is a range *)
Fixpoint in_set (stuff : string) (c : ascii) : bool :=
  match stuff with
  | EmptyString => false
  | String lo (String "-" (String hi rest)) =>
      (ascii_le lo c && ascii_le c hi) || in_set rest c
  | String x rest => Ascii.eqb x c || in_set rest c
  end.

Definition tok_accepts (t : Tok) (c : ascii) : bool :=
  match t with
  | TStar => true
  | TAny => true
  | TSet negate stuff => xorb negate (in_set stuff c)
  | TLit x => Ascii.eqb x c
  end.

Fixpoint tmatch (toks : list Tok) : string -> bool :=
  match toks with
  | [] => fun s => match s with EmptyString => true | String _ _ => false end
  | TStar :: ts =>
      fix star (s : string) : bool :=
        tmatch ts s ||
        match s with
        | EmptyString => false
        | String _ s' => star s'
        end
  | t :: ts =>
      fun s =>
        match s with
        | EmptyString => false
        | String c s' => tok_accepts t c && tmatch ts s'
        end
  end.

Definition fnmatchcase (name pat : string) : bool :=
  tmatch (translate 0 pat) name.

End Fnmatch.

(* ================================================================== *)
(** ** Helpers imported from mrjob.parse, mrjob.runner and mrjob.aws *)

Module Parse.

(** Modelled from the spec: [urlparse(uri).scheme] of mrjob.parse, whose
    code lies outside s3.py.  The spec writes a URI as
    [scheme://bucket/key]; the scheme is the text before the first [://]
    and is empty when there is none. *)
Definition urlparse_scheme (uri : string) : string :=
  match Py.split_once "://" uri with
  | Some (scheme, _) => scheme
  | None => ""
  end.

(** Modelled from the spec: [is_uri] of mrjob.parse ("already a full
    URI"): the text carries a scheme. *)
Definition is_uri (uri : string) : bool :=
  negb (String.eqb (urlparse_scheme uri) "").

(** Modelled from the spec: the schemes [parse_s3_uri] recognises.  The
    spec leaves the list open; [s3] and [s3n] are the two that s3.py
    names. *)
Definition S3_SCHEMES : list string := ["s3"; "s3n"].

(** Modelled from the spec: [parse_s3_uri] of mrjob.parse.  A locator is
    parsed from [scheme://bucket/key]; the scheme is a recognised one, the
    bucket is not empty, the key may be.  [None] stands for the
    [ValueError] the caller sees otherwise. *)
Definition parse_s3_uri (uri : string) : option (string * string) :=
  match Py.split_once "://" uri with
  | Some (scheme, rest) =>
      if existsb (String.eqb scheme) S3_SCHEMES then
        match Py.split_once "/" rest with
        | Some (String c bucket, key) => Some (String c bucket, key)
        | _ => None
        end
      else None
  | None => None
  end.

(** Modelled from the spec: the wildcard characters of a glob pattern,
    [?] and [*]. *)
Definition WILDCARDS : list ascii := ["*"; "?"]%char.

(** Modelled from the spec: [GLOB_RE.match] of mrjob.runner, "the longest
    literal prefix before the first wildcard": [Some (group 1, group 2)]
    when the path holds a wildcard, [None] when it holds none. *)
Definition GLOB_RE_match (path : string) : option (string * string) :=
  Py.break_at WILDCARDS path.

(** Modelled from the spec: [_S3_REGION_WITH_NO_LOCATION_CONSTRAINT] of
    mrjob.aws, "a specific well-known region, not a null value".  No
    statement below depends on which region it is. *)
Definition _S3_REGION_WITH_NO_LOCATION_CONSTRAINT : string := "us-east-1".

End Parse.

(* ================================================================== *)
(** ** Exceptions *)

(** one member of an exception's [args] tuple *)
Inductive arg : Type :=
| AInt (n : Z)
| AStr (s : string).

Definition arg_eqb (a b : arg) : bool :=
  match a, b with
  | AInt x, AInt y => Z.eqb x y
  | AStr x, AStr y => String.eqb x y
  | _, _ => false
  end.

Fixpoint args_eqb (xs ys : list arg) : bool :=
  match xs, ys with
  | [], [] => true
  | x :: xs', y :: ys' => arg_eqb x y && args_eqb xs' ys'
  | _, _ => false
  end.

(** [ex.response['Error']] of a botocore [ClientError], as far as s3.py
    reads it *)
Record ErrorDict : Type := mkErrorDict {
  Code : option string;
  HTTPStatusCode : option Z
}.

(** [ex.response['ResponseMetadata']] of a botocore [ClientError], as far
    as it matters here: the HTTP status of the answer of the service *)
Record ResponseMetadataDict : Type := mkResponseMetadataDict {
  Metadata_HTTPStatusCode : option Z
}.

(** [ex.response] *)
Record Response : Type := mkResponse {
  Error : option ErrorDict;
  ResponseMetadata : option ResponseMetadataDict
}.

Inductive exn : Type :=
| ClientError (response : Response)      (* botocore.exceptions.ClientError *)
| S3ResponseError (status : Z)           (* boto.exception.S3ResponseError *)
| socket_error (args : list arg)         (* socket.error *)
| ImportError (msg : string)
| NameError (name : string)
| AttributeError (msg : string)
| ValueError (msg : string)
| OSError (msg : string)                 (* OSError(msg), as touchz raises it *)
| OtherError (msg : string).             (* any other exception *)

(** the [ClientError] botocore raises when the service answers a request
    with an error: the error code is filed under ['Error'], the HTTP
    status of the answer under ['ResponseMetadata']; botocore files no
    ['HTTPStatusCode'] under ['Error'] *)
Definition service_error (code : string) (status : Z) : exn :=
  ClientError (mkResponse (Some (mkErrorDict (Some code) None))
                 (Some (mkResponseMetadataDict (Some status)))).

Inductive Result (A : Type) : Type :=
| Ok (a : A)
| Raise (e : exn).
Arguments Ok {A} a.
Arguments Raise {A} e.

(* ================================================================== *)
(** ** The world the filesystem runs in *)

(** keyword arguments of [boto3.client] and [boto3.resource] *)
Record Kwargs : Type := mkKwargs {
  aws_access_key_id : option string;
  aws_secret_access_key : option string;
  aws_session_token : option string;
  endpoint_url : option string;
  region_name : option string
}.

(** one stored object *)
Record Obj : Type := mkObj {
  obj_bucket : string;
  obj_name : string;
  obj_size : Z
}.

(** what [get_bucket_location] does for a bucket: answer with its location
    constraint, or fail *)
Inductive LocationOutcome : Type :=
| Located (LocationConstraint : option string)
| LocationFails (e : exn).

(** what another user of the store does between two of our requests *)
Inductive Interference : Type :=
| Quiet
| Deletes (bucket name : string)
| Writes (bucket name : string) (size : Z).

(** what the filesystem does that can be observed from outside *)
Inductive Event : Type :=
| log_debug (msg : string)
| log_warning (msg : string)
| time_sleep (seconds : Z * Z)            (* a fraction: numerator, denominator *)
| boto3_client (kw : Kwargs)
| boto3_resource (kw : Kwargs)
| get_bucket_location (through : Kwargs) (Bucket : string)
| list_objects (through : Kwargs) (Bucket Prefix : string).

Record World : Type := mkWorld {
  boto : bool;                            (* did [import boto] succeed? *)
  boto3 : bool;                           (* did [import boto3] succeed? *)
  bucket_location : string -> LocationOutcome;
  objects : list Obj;
  schedule : list Interference;           (* empty: nobody else uses the store *)
  trace : list Event                      (* oldest first *)
}.

Definition with_objects (objs : list Obj) (w : World) : World :=
  mkWorld (boto w) (boto3 w) (bucket_location w) objs (schedule w) (trace w).

Definition with_schedule (s : list Interference) (w : World) : World :=
  mkWorld (boto w) (boto3 w) (bucket_location w) (objects w) s (trace w).

Definition with_trace (t : list Event) (w : World) : World :=
  mkWorld (boto w) (boto3 w) (bucket_location w) (objects w) (schedule w) t.

Module Store.

Definition is_object (bucket name : string) (o : Obj) : bool :=
  String.eqb (obj_bucket o) bucket && String.eqb (obj_name o) name.

Definition get (objs : list Obj) (bucket name : string) : option Obj :=
  find (is_object bucket name) objs.

Definition delete (objs : list Obj) (bucket name : string) : list Obj :=
  filter (fun o => negb (is_object bucket name o)) objs.

Fixpoint put (objs : list Obj) (bucket name : string) (size : Z) : list Obj :=
  match objs with
  | [] => [mkObj bucket name size]
  | o :: rest =>
      if is_object bucket name o then mkObj bucket name size :: rest
      else o :: put rest bucket name size
  end.

(** the objects of [bucket] whose name starts with [Prefix], in the order
    the store enumerates them *)
Definition scan (objs : list Obj) (bucket Prefix : string) : list Obj :=
  filter (fun o => String.eqb (obj_bucket o) bucket && prefix Prefix (obj_name o)) objs.

Definition interfere (i : Interference) (objs : list Obj) : list Obj :=
  match i with
  | Quiet => objs
  | Deletes bucket name => delete objs bucket name
  | Writes bucket name size => put objs bucket name size
  end.

End Store.

(* ================================================================== *)
(** ** The monad of methods *)

Definition M (A : Type) : Type := World -> Result A * World.

Definition ret {A : Type} (a : A) : M A := fun w => (Ok a, w).

Definition raise {A : Type} (e : exn) : M A := fun w => (Raise e, w).

Definition bind {A B : Type} (m : M A) (k : A -> M B) : M B :=
  fun w =>
    match m w with
    | (Ok a, w') => k a w'
    | (Raise e, w') => (Raise e, w')
    end.

Declare Scope method_scope.
Delimit Scope method_scope with method.
Notation "x <- m ;; k" := (bind m (fun x => k))
  (at level 61, m at next level, right associativity) : method_scope.
Notation "' p <- m ;; k" := (bind m (fun x => let p := x in k))
  (at level 61, p pattern, m at next level, right associativity) : method_scope.
Notation "m ;; k" := (bind m (fun _ => k))
  (at level 61, right associativity) : method_scope.
Open Scope method_scope.

Definition gets {A : Type} (f : World -> A) : M A := fun w => (Ok (f w), w).

Definition emit (e : Event) : M unit :=
  fun w => (Ok tt, with_trace (trace w ++ [e]) w).

(** an exception class named in an [except] clause: evaluating the name can
    itself fail, and gives the [isinstance] test otherwise *)
Definition ExceptionClass : Type := M (exn -> bool).

(** [try: body / except cls: handler].  The handler receives the exception
    being handled, which a bare [raise] re-raises; whether a name is bound
    to it is the handler's business. *)
Definition try_except {A : Type} (body : M A) (cls : ExceptionClass)
    (handler : exn -> M A) : M A :=
  fun w =>
    match body w with
    | (Ok a, w') => (Ok a, w')
    | (Raise e, w') =>
        match cls w' with
        | (Ok isinstance, w'') =>
            if isinstance e then handler e w'' else (Raise e, w'')
        | (Raise e', w'') => (Raise e', w'')
        end
    end.

(** reading a variable: [scope] lists the names bound at that point *)
Definition load_name (scope : list (string * exn)) (name : string) : M exn :=
  match find (fun b => String.eqb (fst b) name) scope with
  | Some (_, v) => ret v
  | None => raise (NameError ("name '" ++ name ++ "' is not defined"))
  end.

(** a generator: its body runs when it is iterated, not when the generator
    function is called *)
Definition Generator (A : Type) : Type := M (list A).

(* ================================================================== *)
(** ** mrjob.retry *)

Module Retry.

(** a number of seconds, as a fraction (numerator, denominator) *)
Definition seconds : Type := (Z * Z)%type.

Definition times (a b : seconds) : seconds :=
  (fst a * fst b, snd a * snd b)%Z.

(** the settings of a wrapper; what it retries on is passed separately *)
Record Policy : Type := mkPolicy {
  backoff : seconds;
  multiplier : seconds;
  max_tries : nat
}.

(** Modelled from the spec: the retry proxy of mrjob.retry, whose code
    lies outside s3.py.  The operation is invoked; on a retryable failure
    the proxy sleeps for the backoff, multiplies the backoff by the
    multiplier and retries, up to [max_tries] attempts in all; any other
    failure is propagated at once, unmodified, and so is the failure of
    the last attempt.  [retries] is the number of attempts still allowed
    after this one. *)
Fixpoint attempt {A : Type} (retry_if : exn -> bool) (multiplier : seconds)
    (retries : nat) (backoff : seconds) (f : M A) : M A :=
  fun w =>
    match f w with
    | (Ok a, w') => (Ok a, w')
    | (Raise ex, w') =>
        match retries with
        | O => (Raise ex, w')
        | S n =>
            if retry_if ex
            then (emit (time_sleep backoff) ;;
                  attempt retry_if multiplier n (times backoff multiplier) f) w'
            else (Raise ex, w')
        end
    end.

Definition call_and_maybe_retry {A : Type} (retry_if : exn -> bool) (p : Policy)
    (f : M A) : M A :=
  attempt retry_if (multiplier p) (Nat.pred (max_tries p)) (backoff p) f.

End Retry.

(* ================================================================== *)
(** ** mrjob.fs.s3 *)

(** if EMR throttles us, how long to wait (in seconds) before trying again? *)
Definition _EMR_BACKOFF : Retry.seconds := (20, 1)%Z.
Definition _EMR_BACKOFF_MULTIPLIER : Retry.seconds := (3, 2)%Z.
Definition _EMR_MAX_TRIES : nat := 20.

Definition _endpoint_url (host_or_uri : option string) : option string :=
  match host_or_uri with
  | None => host_or_uri
  | Some EmptyString => host_or_uri
  | Some h => if Parse.is_uri h then host_or_uri else Some ("https://" ++ h)
  end.

(** [ex.response.get('Error', {}).get('Code', '')] *)
Definition response_Error_Code (r : Response) : string :=
  match Error r with
  | Some d => match Code d with Some c => c | None => "" end
  | None => ""
  end.

(** [ex.response.get('Error', {}).get('HTTPStatusCode')] *)
Definition response_Error_HTTPStatusCode (r : Response) : option Z :=
  match Error r with
  | Some d => HTTPStatusCode d
  | None => None
  end.

(** [status == n], where [status] may be [None] *)
Definition status_is (status : option Z) (n : Z) : bool :=
  match status with
  | Some s => Z.eqb s n
  | None => false
  end.

Definition _is_retriable_client_error (ex : exn) : bool :=
  match ex with
  | ClientError response =>
      let code := response_Error_Code response in
      if existsb (fun c => Py.contains c code) ["Throttl"; "RequestExpired"; "Timeout"]
      then true
      else
        let status := response_Error_HTTPStatusCode response in
        status_is status 505
  | socket_error args =>
      existsb (args_eqb args)
        [ [AInt 104; AStr "Connection reset by peer"];
          [AInt 110; AStr "Connection timed out"] ]
  | _ => false
  end.

(** a boto3 client: the keyword arguments it was made with and, once
    wrapped, the settings of the wrapper every call on it goes through.
    [_wrap_aws_client] is the only wrapper of clients, so a wrapped client
    retries on [_is_retriable_client_error]. *)
Record Client : Type := mkClient {
  client_kwargs : Kwargs;
  client_retry : option Retry.Policy
}.

Definition _wrap_aws_client (raw_client : Client) : Client :=
  mkClient (client_kwargs raw_client)
    (Some (Retry.mkPolicy _EMR_BACKOFF _EMR_BACKOFF_MULTIPLIER _EMR_MAX_TRIES)).

(** a boto3 resource, with its [meta.client] *)
Record Resource : Type := mkResource {
  meta_client : Client
}.

(** [resource.Bucket(name)] *)
Record Bucket : Type := mkBucket {
  bucket_resource : Resource;
  bucket_name : string
}.

(** a [Key] object of boto, the library of [make_s3_conn].  Keys are made
    by the buckets of boto ([get_key], [new_key]); s3.py asks the bucket
    of [get_bucket] for them, which is boto3's and makes none.  No method
    of s3.py ever holds a key, so the type has no value, and what s3.py
    reads of a key or does with it is written with the names below. *)
Inductive Key : Type := .

(** [key.bucket] *)
Definition key_bucket (k : Key) : Bucket := match k with end.

(** [key.name] *)
Definition key_name (k : Key) : string := match k with end.

(** [key.size] *)
Definition key_size (k : Key) : option Z := match k with end.

(** an entry of [bucket.objects.filter(...)]; [key] is the object's name *)
Record ObjectSummary : Type := mkObjectSummary {
  key : string
}.

(** *** What the client library does

    Creating a client or a resource contacts nobody.  Each request first
    lets the rest of the world act ([schedule]), is recorded in [trace],
    and goes through the client's retry wrapper when it has one.  The
    bucket [get_bucket] returns is [resource.Bucket(name)] of boto3: it
    has [objects.filter], which [ls] calls, and neither [get_key] nor
    [new_key], the methods of the buckets of boto that [get_s3_key] and
    [make_s3_key] call on it: looking them up raises [AttributeError]. *)
Module Boto.

Definition client (kwargs : Kwargs) : M Client :=
  emit (boto3_client kwargs) ;;
  ret (mkClient kwargs None).

Definition resource (kwargs : Kwargs) : M Resource :=
  emit (boto3_resource kwargs) ;;
  ret (mkResource (mkClient kwargs None)).

(** the rest of the world takes its next step, if it has one *)
Definition others_act : M unit :=
  fun w =>
    match schedule w with
    | [] => (Ok tt, w)
    | i :: rest =>
        (Ok tt, with_schedule rest (with_objects (Store.interfere i (objects w)) w))
    end.

Definition request {A : Type} (c : Client) (e : Event) (answer : M A) : M A :=
  let raw := others_act ;; emit e ;; answer in
  match client_retry c with
  | Some p => Retry.call_and_maybe_retry _is_retriable_client_error p raw
  | None => raw
  end.

(** [client.get_bucket_location(Bucket=...)['LocationConstraint']] *)
Definition client_get_bucket_location (c : Client) (Bucket : string)
    : M (option string) :=
  request c (get_bucket_location (client_kwargs c) Bucket)
    (fun w =>
       match bucket_location w Bucket with
       | Located constraint => (Ok constraint, w)
       | LocationFails e => (Raise e, w)
       end).

(** [list(bucket.objects.filter(Prefix=...))] *)
Definition objects_filter (b : Bucket) (Prefix : string) : M (list ObjectSummary) :=
  let c := meta_client (bucket_resource b) in
  request c (list_objects (client_kwargs c) (bucket_name b) Prefix)
    (gets (fun w =>
             map (fun o => mkObjectSummary (obj_name o))
                 (Store.scan (objects w) (bucket_name b) Prefix))).

(** [bucket.get_key]: boto3's bucket has no such attribute, and the
    lookup fails before anything is requested *)
Definition get_key (b : Bucket) (name : string) : M (option Key) :=
  raise (AttributeError "'s3.Bucket' object has no attribute 'get_key'").

(** [bucket.new_key]: no such attribute either *)
Definition new_key (b : Bucket) (name : string) : M Key :=
  raise (AttributeError "'s3.Bucket' object has no attribute 'new_key'").

(** [key.set_contents_from_string(s)] *)
Definition set_contents_from_string (k : Key) (s : string) : M unit :=
  match k with end.

End Boto.

(** *** class S3Filesystem *)

Record S3Filesystem : Type := mkS3Filesystem {
  _s3_endpoint_url : option string;
  _s3_region : option string;
  _aws_access_key_id : option string;
  _aws_secret_access_key : option string;
  _aws_session_token : option string
}.

(** [S3Filesystem.__init__] *)
Definition __init__ (aws_access_key_id aws_secret_access_key aws_session_token
                     s3_endpoint s3_region : option string) : S3Filesystem :=
  mkS3Filesystem (_endpoint_url s3_endpoint) s3_region
    aws_access_key_id aws_secret_access_key aws_session_token.

Definition _client_kwargs (self : S3Filesystem) (region_name : option string) : Kwargs :=
  (* self._s3_endpoint overrides region *)
  let '(endpoint_url, region_name) :=
    if Py.truthy (_s3_endpoint_url self)
    then (_s3_endpoint_url self, _s3_region self)
    else (None, region_name) in
  mkKwargs (_aws_access_key_id self) (_aws_secret_access_key self)
    (_aws_session_token self) endpoint_url region_name.

(** [kwargs['endpoint_url'] or kwargs['region_name'] or 'default'] *)
Definition describe (kwargs : Kwargs) : string :=
  match Py.or_ (Py.or_ (endpoint_url kwargs) (region_name kwargs)) (Some "default") with
  | Some s => s
  | None => "None"
  end.

Definition make_s3_resource (self : S3Filesystem) (region_name : option string)
    : M Resource :=
  (* give a non-cryptic error message if boto isn't installed *)
  installed <- gets boto3 ;;
  if negb installed then raise (ImportError "You must install boto3 to connect to S3")
  else
    let kwargs := _client_kwargs self region_name in
    emit (log_debug ("creating S3 resource (" ++ describe kwargs ++ ")")) ;;
    s3_resource <- Boto.resource kwargs ;;
    ret (mkResource (_wrap_aws_client (meta_client s3_resource))).

Definition make_s3_client (self : S3Filesystem) (region_name : option string)
    : M Client :=
  (* give a non-cryptic error message if boto isn't installed *)
  installed <- gets boto3 ;;
  if negb installed then raise (ImportError "You must install boto3 to connect to S3")
  else
    let kwargs := _client_kwargs self region_name in
    emit (log_debug ("creating S3 client (" ++ describe kwargs ++ ")")) ;;
    raw_client <- Boto.client kwargs ;;
    ret (_wrap_aws_client raw_client).

Definition _get_bucket_region (client : Client) (bucket_name : string) : M string :=
  constraint <- Boto.client_get_bucket_location client bucket_name ;;
  ret (match Py.or_ constraint (Some Parse._S3_REGION_WITH_NO_LOCATION_CONSTRAINT) with
       | Some region => region
       | None => Parse._S3_REGION_WITH_NO_LOCATION_CONSTRAINT
       end).

(** [botocore.exceptions.ClientError]: botocore comes with boto3, and the
    name is only evaluated once a boto3 client exists *)
Definition botocore_exceptions_ClientError : ExceptionClass :=
  ret (fun e => match e with ClientError _ => true | _ => false end).

(** [boto.exception.S3ResponseError]: [boto] is [None] when the import at
    the top of s3.py failed *)
Definition boto_exception_S3ResponseError : ExceptionClass :=
  installed <- gets boto ;;
  if installed
  then ret (fun e => match e with S3ResponseError _ => true | _ => false end)
  else raise (AttributeError "'NoneType' object has no attribute 'exception'").

(** [ex.response] *)
Definition getattr_response (ex : exn) : M Response :=
  match ex with
  | ClientError response => ret response
  | _ => raise (AttributeError "exception has no attribute 'response'")
  end.

(** [e.status] *)
Definition getattr_status (e : exn) : M Z :=
  match e with
  | S3ResponseError status => ret status
  | _ => raise (AttributeError "exception has no attribute 'status'")
  end.

Definition get_bucket (self : S3Filesystem) (bucket_name : string) : M Bucket :=
  client <- make_s3_client self None ;;
  region_name <-
    try_except
      (region <- _get_bucket_region client bucket_name ;; ret (Some region))
      botocore_exceptions_ClientError
      (fun current =>
         (* [except botocore.exceptions.ClientError:] binds no name, and
            the method has no other variable called [ex] *)
         ex <- load_name [] "ex" ;;
         response <- getattr_response ex ;;
         let status := response_Error_HTTPStatusCode response in
         if negb (status_is status 403)     (* e.g. 404 for non-existent bucket *)
         then raise current
         else
           emit (log_warning ("Could not infer endpoint for bucket " ++ bucket_name
                              ++ "; assuming defaults")) ;;
           ret None) ;;
  resource <- make_s3_resource self region_name ;;
  ret (mkBucket resource bucket_name).

(** [parse_s3_uri(uri)], raising as the helper does *)
Definition parse_s3_uri (uri : string) : M (string * string) :=
  match Parse.parse_s3_uri uri with
  | Some locator => ret locator
  | None => raise (ValueError ("Invalid S3 URI: " ++ uri))
  end.

Definition get_s3_key (self : S3Filesystem) (uri : string) : M (option Key) :=
  '(bucket_name, key_name) <- parse_s3_uri uri ;;
  found <-
    try_except
      (bucket <- get_bucket self bucket_name ;; ret (Some bucket))
      boto_exception_S3ResponseError
      (fun e =>
         status <- getattr_status e ;;
         if negb (Z.eqb status 404) then raise e
         else ret None) ;;
  match found with
  | None => ret None                                  (* key = None *)
  | Some bucket => Boto.get_key bucket key_name       (* the else clause *)
  end.

Definition make_s3_key (self : S3Filesystem) (uri : string) : M Key :=
  '(bucket_name, key_name) <- parse_s3_uri uri ;;
  bucket <- get_bucket self bucket_name ;;
  Boto.new_key bucket key_name.

(** the loop of [ls] over the keys the scan returned *)
Fixpoint ls_loop (scheme bucket_name path_glob dir_glob : string)
    (keys : list ObjectSummary) : list string :=
  match keys with
  | [] => []
  | k :: rest =>
      let uri := scheme ++ "://" ++ bucket_name ++ "/" ++ key k in
      (* enforce globbing *)
      if negb (Fnmatch.fnmatchcase uri path_glob || Fnmatch.fnmatchcase uri dir_glob)
      then ls_loop scheme bucket_name path_glob dir_glob rest
      else uri :: ls_loop scheme bucket_name path_glob dir_glob rest
  end.

Definition ls (self : S3Filesystem) (path_glob : string) : Generator string :=
  let scheme := Parse.urlparse_scheme path_glob in
  (* support globs *)
  let glob_match := Parse.GLOB_RE_match path_glob in
  (* we're going to search for all keys starting with base_uri *)
  let base_uri :=
    match glob_match with
    | Some (group1, _) => group1          (* cut it off at first wildcard *)
    | None => path_glob
    end in
  '(bucket_name, base_name) <- parse_s3_uri base_uri ;;
  (* allow subdirectories of the path/glob *)
  let dir_glob :=
    if Py.truthy (Some path_glob) && negb (Py.endswith path_glob "/")
    then path_glob ++ "/*"
    else path_glob ++ "*" in
  bucket <- get_bucket self bucket_name ;;
  keys <- Boto.objects_filter bucket base_name ;;
  ret (ls_loop scheme bucket_name path_glob dir_glob keys).

(** [key.size] where [key] may be [None] *)
Definition getattr_size (k : option Key) : M (option Z) :=
  match k with
  | Some k => ret (key_size k)
  | None => raise (AttributeError "'NoneType' object has no attribute 'size'")
  end.

(** [self.get_s3_key(uri).size], the term of the sum in [du] *)
Definition size_of (self : S3Filesystem) (uri : string) : M (option Z) :=
  k <- get_s3_key self uri ;;
  getattr_size k.

(** [total + size], as [sum] adds a term *)
Definition add (total : Z) (size : option Z) : M Z :=
  match size with
  | Some n => ret (total + n)%Z
  | None =>
      raise (OtherError "TypeError: unsupported operand type(s) for +: 'int' and 'NoneType'")
  end.

(** [sum(self.get_s3_key(uri).size for uri in uris)], continued from
    [total]: each term is fetched and added before the next URI is taken *)
Fixpoint sum_sizes (self : S3Filesystem) (total : Z) (uris : list string) : M Z :=
  match uris with
  | [] => ret total
  | uri :: rest =>
      size <- size_of self uri ;;
      total <- add total size ;;
      sum_sizes self total rest
  end.

Definition du (self : S3Filesystem) (path_glob : string) : M Z :=
  uris <- ls self path_glob ;;
  sum_sizes self 0 uris.

(** [any(paths)]: is one of the strings the generator yields non-empty? *)
Definition builtin_any (paths : Generator string) : M bool :=
  yielded <- paths ;;
  ret (existsb (fun uri => Py.truthy (Some uri)) yielded).

Definition exists_ (self : S3Filesystem) (path_glob : string) : M bool :=
  (* just fall back on ls(); it's smart *)
  paths <-
    try_except
      (ret (ls self path_glob))          (* calling ls only makes the generator *)
      boto_exception_S3ResponseError
      (fun _ => ret (ret [])) ;;
  builtin_any paths.

(** [%r] writes the path between quotes (the [repr] of a text that holds
    neither a quote nor a character to escape) *)
Definition touchz (self : S3Filesystem) (dest : string) : M unit :=
  k <- get_s3_key self dest ;;
  if match k with
     | Some k => negb (match key_size k with Some 0%Z => true | _ => false end)
     | None => false
     end
  then raise (OSError ("Non-empty file '" ++ dest ++ "' already exists!"))
  else
    new <- make_s3_key self dest ;;
    Boto.set_contents_from_string new "".

(* ================================================================== *)
(** ** Vocabulary of the statements *)

(** the world after the rest of the world took its next step *)
Definition step (w : World) : World := snd (Boto.others_act w).

(** the world after [events] were recorded *)
Definition logged (events : list Event) (w : World) : World :=
  with_trace (trace w ++ events) w.

(** nobody else is using the store *)
Definition quiet (w : World) : Prop := schedule w = [].

(** the part of the world no method changes *)
Definition same_service (w w' : World) : Prop :=
  boto w' = boto w /\ boto3 w' = boto3 w /\ bucket_location w' = bucket_location w.

(** the region [_get_bucket_region] makes of a location constraint *)
Definition region_for (constraint : option string) : string :=
  match Py.or_ constraint (Some Parse._S3_REGION_WITH_NO_LOCATION_CONSTRAINT) with
  | Some region => region
  | None => Parse._S3_REGION_WITH_NO_LOCATION_CONSTRAINT
  end.

(** what [make_s3_client()] records *)
Definition client_events (self : S3Filesystem) : list Event :=
  let kwargs := _client_kwargs self None in
  [log_debug ("creating S3 client (" ++ describe kwargs ++ ")"); boto3_client kwargs].

(** what [make_s3_resource(region)] records *)
Definition resource_events (self : S3Filesystem) (region : option string) : list Event :=
  let kwargs := _client_kwargs self region in
  [log_debug ("creating S3 resource (" ++ describe kwargs ++ ")"); boto3_resource kwargs].

(** the world once [get_bucket] has asked, once, for the bucket's location *)
Definition asked_location (self : S3Filesystem) (b : string) (w : World) : World :=
  logged [get_bucket_location (_client_kwargs self None) b]
    (step (logged (client_events self) w)).

(** the world once [get_bucket] has returned, the location being [c] *)
Definition after_get_bucket (self : S3Filesystem) (b : string) (c : option string)
    (w : World) : World :=
  logged (resource_events self (Some (region_for c))) (asked_location self b w).

(** the bucket handle [get_bucket] builds from keyword arguments *)
Definition bucket_through (kwargs : Kwargs) (name : string) : Bucket :=
  mkBucket (mkResource (_wrap_aws_client (mkClient kwargs None))) name.

(** the spec's words for the directory pattern: [P + '/*'] when [P] does
    not end in the separator, [P + '*'] when it does *)
Definition directory_pattern (P : string) : string :=
  if Py.endswith P "/" then P ++ "*" else P ++ "/*".

(** the spec's words for the scan prefix: the text of [P] before its first
    wildcard, all of [P] when it has none *)
Fixpoint literal_prefix (P : string) : string :=
  match P with
  | EmptyString => EmptyString
  | String c rest =>
      if Ascii.eqb c "*" || Ascii.eqb c "?" then EmptyString
      else String c (literal_prefix rest)
  end.

(** the URI [ls] rebuilds for a stored object *)
Definition uri_of (scheme bucket_name : string) (o : Obj) : string :=
  scheme ++ "://" ++ bucket_name ++ "/" ++ obj_name o.

(** the HTTP status of the answer a client error reports *)
Definition http_status (response : Response) : option Z :=
  match ResponseMetadata response with
  | Some metadata => Metadata_HTTPStatusCode metadata
  | None => None
  end.

(** the spec's words for the retry classification: throttling, an expired
    request signature, HTTP 505, or one of the two connection errors *)
Definition spec_retryable (ex : exn) : bool :=
  match ex with
  | ClientError response =>
      Py.contains "Throttl" (response_Error_Code response)
      || Py.contains "RequestExpired" (response_Error_Code response)
      || status_is (http_status response) 505
  | socket_error args =>
      args_eqb args [AInt 104; AStr "Connection reset by peer"]
      || args_eqb args [AInt 110; AStr "Connection timed out"]
  | _ => false
  end.

(** no character that [fnmatch] reads as a pattern *)
Fixpoint literal (P : string) : bool :=
  match P with
  | EmptyString => true
  | String c rest =>
      negb (Ascii.eqb c "*" || Ascii.eqb c "?" || Ascii.eqb c "[") && literal rest
  end.

(** the URIs [ls] yields over a store *)
Definition listing (P : string) (bucket base_name : string) (objs : list Obj) : list string :=
  filter (fun uri => Fnmatch.fnmatchcase uri P || Fnmatch.fnmatchcase uri (directory_pattern P))
         (map (uri_of (Parse.urlparse_scheme P) bucket) (Store.scan objs bucket base_name)).

Definition after_ls (self : S3Filesystem) (b n : string) (c : option string) (w : World) : World :=
  logged [list_objects (_client_kwargs self (Some (region_for c))) b n]
         (step (after_get_bucket self b c w)).

(** the stored objects [ls(P)] yields, in the order of the scan *)
Definition matched (P bucket base_name : string) (objs : list Obj) : list Obj :=
  filter (fun o =>
            let uri := uri_of (Parse.urlparse_scheme P) bucket o in
            Fnmatch.fnmatchcase uri P || Fnmatch.fnmatchcase uri (directory_pattern P))
         (Store.scan objs bucket base_name).

(** [P] taken as a directory: [P] itself when it ends in ['/'], [P + '/']
    otherwise *)
Definition as_directory (P : string) : string :=
  if Py.endswith P "/" then P else P ++ "/".

(** the keyword arguments of a filesystem with an endpoint override *)
Definition static_kwargs (self : S3Filesystem) : Kwargs :=
  mkKwargs (_aws_access_key_id self) (_aws_secret_access_key self)
    (_aws_session_token self) (_s3_endpoint_url self) (_s3_region self).

(** *** Worlds and filesystems used as examples *)

Module Example.

Definition fs : S3Filesystem := __init__ None None None None None.

Definition fs_endpoint : S3Filesystem :=
  __init__ None None None (Some "s3.example.com") (Some "eu-west-1").

Definition client_error (code : string) (status : Z) : exn :=
  service_error code status.

(** [walrus] answers; the caller may not read the location of [emr];
    [old] and [broken] fail as the old library would report it, not found
    and server error; no other bucket exists *)
Definition locations (bucket : string) : LocationOutcome :=
  if String.eqb bucket "walrus" then Located None
  else if String.eqb bucket "emr" then LocationFails (client_error "AccessDenied" 403)
  else if String.eqb bucket "old" then LocationFails (S3ResponseError 404)
  else if String.eqb bucket "broken" then LocationFails (S3ResponseError 500)
  else LocationFails (client_error "NoSuchBucket" 404).

Definition store : list Obj :=
  [ mkObj "walrus" "data/foo" 10;
    mkObj "walrus" "data/bar" 20;
    mkObj "walrus" "data/qux" 30;
    mkObj "walrus" "empty" 0;
    mkObj "walrus" "other" 7 ].

Definition world : World := mkWorld true true locations store [] [].

End Example.

(* ================================================================== *)
(** ** mrjob.fs.s3: the other methods

    [s3_key_to_uri], [_cat_file], [md5sum], [rm] and [create_bucket], with
    the calls of the client library they make. *)

Module BotoMore.

(** a request that [trace] has no entry for: the rest of the world acts,
    the service answers, and the client's retry wrapper is gone through as
    for the requests of [Boto] *)
Definition request_unrecorded {A : Type} (c : Client) (answer : M A) : M A :=
  let raw := Boto.others_act ;; answer in
  match client_retry c with
  | Some p => Retry.call_and_maybe_retry _is_retriable_client_error p raw
  | None => raw
  end.

(** [key.delete()] *)
Definition delete (k : Key) : M unit :=
  match k with end.

(** the world where [Bucket] has the location [constraint] *)
Definition with_bucket (Bucket : string) (constraint : option string) (w : World) : World :=
  mkWorld (boto w) (boto3 w)
    (fun b => if String.eqb b Bucket then Located constraint else bucket_location w b)
    (objects w) (schedule w) (trace w).

(** [client.create_bucket(Bucket=..., CreateBucketConfiguration=conf)],
    where [conf] is given by its ['LocationConstraint'] entry, [None] when
    it has none: the service makes the bucket and keeps the constraint as
    its location *)
Definition client_create_bucket (c : Client) (Bucket : string)
    (CreateBucketConfiguration : option string) : M unit :=
  request_unrecorded c
    (fun w => (Ok tt, with_bucket Bucket CreateBucketConfiguration w)).

End BotoMore.

(** [s3_key_to_uri(s3_key)]; given [None] it fails on [s3_key.bucket] *)
Definition s3_key_to_uri (s3_key : option Key) : M string :=
  match s3_key with
  | Some k => ret ("s3://" ++ bucket_name (key_bucket k) ++ "/" ++ key_name k)
  | None => raise (AttributeError "'NoneType' object has no attribute 'bucket'")
  end.

(** Modelled from the spec: [read_file] of mrjob.util, whose code lies
    outside s3.py: a reader that makes an iterator of a remote object
    handle and is told whether the handle yields lines.  Only the call is
    kept, with its arguments. *)
Record read_file : Type := mk_read_file {
  read_path : string;
  read_fileobj : option Key;
  read_yields_lines : bool
}.

Definition _cat_file (self : S3Filesystem) (filename : string) : M read_file :=
  (* stream lines from the s3 key *)
  s3_key <- get_s3_key self filename ;;
  (* yields_lines=False: warn read_file that s3_key yields chunks of bytes *)
  path <- s3_key_to_uri s3_key ;;
  ret (mk_read_file path s3_key false).

(** [s.lstrip(c)] for a one-character [c] *)
Fixpoint lstrip (c : ascii) (s : string) : string :=
  match s with
  | EmptyString => EmptyString
  | String x rest => if Ascii.eqb x c then lstrip c rest else s
  end.

(** [s.rstrip(c)] for a one-character [c] *)
Fixpoint rstrip (c : ascii) (s : string) : string :=
  match s with
  | EmptyString => EmptyString
  | String x rest =>
      match rstrip c rest with
      | EmptyString => if Ascii.eqb x c then EmptyString else String x EmptyString
      | kept => String x kept
      end
  end.

(** [s.strip(c)] for a one-character [c] *)
Definition strip (c : ascii) (s : string) : string := rstrip c (lstrip c s).

(** the double quote *)
Definition quote : ascii := "034"%char.

(** [md5sum].  [etag] stands for the attribute [k.etag] of a key. *)
Definition md5sum (etag : Key -> string) (self : S3Filesystem) (path : string)
    : M string :=
  k <- get_s3_key self path ;;
  match k with
  | Some k => ret (strip quote (etag k))
  | None => raise (AttributeError "'NoneType' object has no attribute 'etag'")
  end.

(** the loop of [rm] over the URIs [ls] yields; a key object is true *)
Fixpoint rm_loop (self : S3Filesystem) (uris : list string) : M unit :=
  match uris with
  | [] => ret tt
  | uri :: rest =>
      k <- get_s3_key self uri ;;
      match k with
      | Some k =>
          emit (log_debug ("deleting " ++ uri)) ;;
          BotoMore.delete k
      | None => ret tt
      end ;;
      rm_loop self rest
  end.

Definition rm (self : S3Filesystem) (path_glob : string) : M unit :=
  uris <- ls self path_glob ;;
  rm_loop self uris.

(** the ['LocationConstraint'] entry [create_bucket] puts in [conf], [None]
    when it puts none *)
Definition create_bucket_conf (region : option string) : option string :=
  match region with
  | Some r =>
      if Py.truthy region
         && negb (String.eqb r Parse._S3_REGION_WITH_NO_LOCATION_CONSTRAINT)
      then Some r
      else None
  | None => None
  end.

Definition create_bucket (self : S3Filesystem) (bucket_name : string)
    (region : option string) : M unit :=
  client <- make_s3_client self None ;;
  let conf := create_bucket_conf region in
  BotoMore.client_create_bucket client bucket_name conf.

(** *** More worlds used as examples *)

Module Example2.

(** [boto3] could not be imported *)
Definition without_boto3 : World :=
  mkWorld true false Example.locations Example.store [] [].

(** [boto] could not be imported *)
Definition without_boto : World :=
  mkWorld false true Example.locations Example.store [] [].

(** credentials, and no endpoint override *)
Definition fs_keys : S3Filesystem :=
  __init__ (Some "AKIDEXAMPLE") (Some "wJalrEXAMPLEKEY") None None (Some "eu-west-1").

(** [frankfurt] reports a location constraint *)
Definition europe : World :=
  mkWorld true true
    (fun b => if String.eqb b "frankfurt" then Located (Some "eu-central-1")
              else Example.locations b)
    Example.store [] [].

(** [busy] is throttled for as long as one asks *)
Definition throttling : World :=
  mkWorld true true
    (fun b => if String.eqb b "busy"
              then LocationFails (Example.client_error "Throttling" 400)
              else Example.locations b)
    Example.store [] [].

End Example2.

(** the keyword arguments of a filesystem without endpoint override *)
Definition plain_kwargs (self : S3Filesystem) (region : option string) : Kwargs :=
  mkKwargs (_aws_access_key_id self) (_aws_secret_access_key self)
    (_aws_session_token self) None region.

(** what a lookup that fails [retries + 1] times in a row records, the
    first sleep being [backoff] *)
Fixpoint failed_lookups (through : Kwargs) (b : string) (retries : nat)
    (backoff : Retry.seconds) : list Event :=
  get_bucket_location through b ::
  match retries with
  | O => []
  | S n =>
      time_sleep backoff ::
      failed_lookups through b n (Retry.times backoff _EMR_BACKOFF_MULTIPLIER)
  end.

(** the sleeps among events, in order *)
Fixpoint slept (events : list Event) : list Retry.seconds :=
  match events with
  | [] => []
  | time_sleep s :: rest => s :: slept rest
  | _ :: rest => slept rest
  end.

(** the number of location lookups among events *)
Fixpoint lookups (events : list Event) : nat :=
  match events with
  | [] => 0
  | get_bucket_location _ _ :: rest => S (lookups rest)
  | _ :: rest => lookups rest
  end.

(** the sum of fractions, as a fraction *)
Definition total_seconds (sleeps : list Retry.seconds) : Retry.seconds :=
  fold_right (fun s acc => (fst s * snd acc + fst acc * snd s, snd s * snd acc)%Z)
    (0, 1)%Z sleeps.

(** [u] is the plain path [P] or lies under it as a directory *)
Definition plain_match (P u : string) : bool :=
  String.eqb u P || prefix (as_directory P) u.

(** the objects of bucket [b] that the plain path [P] designates *)
Definition designated (P b : string) (objs : list Obj) : list Obj :=
  filter (fun o => String.eqb (obj_bucket o) b
                   && plain_match P (uri_of (Parse.urlparse_scheme P) b o)) objs.

(* ================================================================== *)
(** ** The helpers on examples *)

Example endswith_slash :
  Py.endswith "s3://walrus/data/" "/" = true
  /\ Py.endswith "s3://walrus/data" "/" = false
  /\ Py.endswith "" "/" = false.
Proof. repeat split. Qed.

Example contains_substring :
  Py.contains "Throttl" "ThrottlingException" = true
  /\ Py.contains "Timeout" "RequestTimeout" = true
  /\ Py.contains "Timeout" "AccessDenied" = false.
Proof. repeat split. Qed.

Example parse_s3_uri_examples :
  Parse.parse_s3_uri "s3://walrus/tmp/" = Some ("walrus", "tmp/")
  /\ Parse.parse_s3_uri "s3n://walrus/data/foo" = Some ("walrus", "data/foo")
  /\ Parse.parse_s3_uri "s3://walrus" = None
  /\ Parse.parse_s3_uri "/tmp/walrus" = None
  /\ Parse.parse_s3_uri "" = None.
Proof. repeat split. Qed.

Example GLOB_RE_examples :
  Parse.GLOB_RE_match "s3://walrus/data/*.gz" = Some ("s3://walrus/data/", "*.gz")
  /\ Parse.GLOB_RE_match "s3://walrus/da?a/foo" = Some ("s3://walrus/da", "?a/foo")
  /\ Parse.GLOB_RE_match "s3://walrus/data" = None.
Proof. repeat split. Qed.

Example fnmatchcase_star_crosses_slash :
  Fnmatch.fnmatchcase "s3://walrus/data/2016/part-0" "s3://walrus/data/*" = true.
Proof. reflexivity. Qed.

Example fnmatchcase_question_mark :
  Fnmatch.fnmatchcase "s3://walrus/data/a" "s3://walrus/dat?/?" = true
  /\ Fnmatch.fnmatchcase "s3://walrus/data/" "s3://walrus/dat?/?" = false.
Proof. split; reflexivity. Qed.

Example fnmatchcase_is_case_sensitive :
  Fnmatch.fnmatchcase "s3://walrus/Data" "s3://walrus/data" = false.
Proof. reflexivity. Qed.

Example fnmatchcase_brackets :
  Fnmatch.fnmatchcase "part-3" "part-[0-4]" = true
  /\ Fnmatch.fnmatchcase "part-7" "part-[0-4]" = false
  /\ Fnmatch.fnmatchcase "part-7" "part-[!0-4]" = true
  /\ Fnmatch.fnmatchcase "part-[" "part-[" = true.
Proof. repeat split. Qed.

(* ================================================================== *)
(** ** Running methods *)

Lemma bind_ok {A B} (m : M A) (k : A -> M B) w a w' :
  m w = (Ok a, w') -> bind m k w = k a w'.
Proof. intros H. unfold bind. rewrite H. reflexivity. Qed.

Lemma bind_raise {A B} (m : M A) (k : A -> M B) w e w' :
  m w = (Raise e, w') -> bind m k w = (Raise e, w').
Proof. intros H. unfold bind. rewrite H. reflexivity. Qed.

Lemma bind_ext {A B} (m : M A) (k1 k2 : A -> M B) w :
  (forall a w', k1 a w' = k2 a w') -> bind m k1 w = bind m k2 w.
Proof. intros H. unfold bind. destruct (m w) as [[a|e] w']; [apply H|reflexivity]. Qed.

Lemma try_except_ok {A} (body : M A) cls handler w a w' :
  body w = (Ok a, w') -> try_except body cls handler w = (Ok a, w').
Proof. intros H. unfold try_except. rewrite H. reflexivity. Qed.

Lemma try_except_raise {A} (body : M A) cls handler w e w' isinstance w'' :
  body w = (Raise e, w') ->
  cls w' = (Ok isinstance, w'') ->
  try_except body cls handler w = if isinstance e then handler e w'' else (Raise e, w'').
Proof. intros H Hc. unfold try_except. rewrite H, Hc. reflexivity. Qed.

(** *** The retry wrapper *)

Section RetryFacts.

Context {A : Type}.
Variable retry_if : exn -> bool.
Variable multiplier : Retry.seconds.
Variable f : M A.

Lemma attempt_ok retries backoff w a w' :
  f w = (Ok a, w') ->
  Retry.attempt retry_if multiplier retries backoff f w = (Ok a, w').
Proof. intros H. destruct retries; simpl; rewrite H; reflexivity. Qed.

Lemma attempt_fatal retries backoff w ex w' :
  f w = (Raise ex, w') ->
  retry_if ex = false ->
  Retry.attempt retry_if multiplier retries backoff f w = (Raise ex, w').
Proof.
  intros H Hno. destruct retries; simpl; rewrite H; [reflexivity|].
  rewrite Hno. reflexivity.
Qed.

(** an operation that fails the same way whenever the invariant [Inv]
    holds fails that way however often it is retried *)
Lemma attempt_always_fails (Inv : World -> Prop) ex :
  (forall w, Inv w -> exists w', f w = (Raise ex, w') /\ Inv w') ->
  (forall w e, Inv w -> Inv (logged [e] w)) ->
  forall retries backoff w, Inv w ->
    exists w', Retry.attempt retry_if multiplier retries backoff f w = (Raise ex, w') /\ Inv w'.
Proof.
  intros Hf Hlog. induction retries as [|n IH]; intros backoff w Hw.
  - destruct (Hf w Hw) as (w' & E & Hw'). exists w'. simpl. rewrite E. auto.
  - destruct (Hf w Hw) as (w' & E & Hw'). simpl. rewrite E.
    destruct (retry_if ex).
    + unfold bind, emit.
      apply (IH (Retry.times backoff multiplier) (logged [time_sleep backoff] w')).
      apply Hlog, Hw'.
    + exists w'. auto.
Qed.

End RetryFacts.

(** *** Clients, resources and [get_bucket] *)

Lemma make_s3_client_run self region w :
  boto3 w = true ->
  make_s3_client self region w =
    (Ok (_wrap_aws_client (mkClient (_client_kwargs self region) None)),
     logged [log_debug ("creating S3 client (" ++ describe (_client_kwargs self region) ++ ")");
             boto3_client (_client_kwargs self region)] w).
Proof.
  intros H. unfold make_s3_client, bind, gets. rewrite H. simpl.
  unfold Boto.client, bind, emit, ret. simpl.
  unfold logged, with_trace. simpl. rewrite <- app_assoc. reflexivity.
Qed.

Lemma make_s3_resource_run self region w :
  boto3 w = true ->
  make_s3_resource self region w =
    (Ok (mkResource (_wrap_aws_client (mkClient (_client_kwargs self region) None))),
     logged (resource_events self region) w).
Proof.
  intros H. unfold make_s3_resource, bind, gets. rewrite H. simpl.
  unfold Boto.resource, bind, emit, ret. simpl.
  unfold resource_events, logged, with_trace. simpl. rewrite <- app_assoc. reflexivity.
Qed.

Lemma step_same_service w : same_service w (step w).
Proof. unfold step, Boto.others_act, same_service. destruct (schedule w); simpl; auto. Qed.

Lemma logged_same_service evs w : same_service w (logged evs w).
Proof. unfold same_service; simpl; auto. Qed.

Lemma same_service_trans w1 w2 w3 : same_service w1 w2 -> same_service w2 w3 -> same_service w1 w3.
Proof. unfold same_service. intros (a & b & c) (d & e & f). repeat split; congruence. Qed.

Lemma same_service_refl w : same_service w w.
Proof. unfold same_service; auto. Qed.

(** one raw request for the location of a bucket *)
Lemma raw_location_run kw b w :
  (Boto.others_act ;; emit (get_bucket_location kw b) ;;
   (fun w => match bucket_location w b with
             | Located c => (Ok c, w)
             | LocationFails e => (Raise e, w)
             end)) w
  = (match bucket_location w b with Located c => Ok c | LocationFails e => Raise e end,
     logged [get_bucket_location kw b] (step w)).
Proof.
  unfold bind, emit, step, Boto.others_act.
  destruct (schedule w); simpl; destruct (bucket_location w b); reflexivity.
Qed.

Lemma client_get_bucket_location_located kw b w c :
  bucket_location w b = Located c ->
  Boto.client_get_bucket_location (_wrap_aws_client (mkClient kw None)) b w
  = (Ok c, logged [get_bucket_location kw b] (step w)).
Proof.
  intros H. unfold Boto.client_get_bucket_location, Boto.request. simpl.
  unfold Retry.call_and_maybe_retry. apply attempt_ok.
  rewrite raw_location_run, H. reflexivity.
Qed.

Lemma client_get_bucket_location_fails kw b w e :
  bucket_location w b = LocationFails e ->
  exists w', Boto.client_get_bucket_location (_wrap_aws_client (mkClient kw None)) b w
             = (Raise e, w') /\ same_service w w'.
Proof.
  intros H. unfold Boto.client_get_bucket_location, Boto.request. simpl.
  unfold Retry.call_and_maybe_retry.
  apply (attempt_always_fails _ _ _ (fun w' => same_service w w')).
  - intros w1 Hw1. eexists. rewrite raw_location_run. split.
    + destruct Hw1 as (_ & _ & E). rewrite E, H. reflexivity.
    + eapply same_service_trans; [exact Hw1|].
      eapply same_service_trans; [apply step_same_service|apply logged_same_service].
  - intros w1 ev Hw1. eapply same_service_trans; [exact Hw1|apply logged_same_service].
  - apply same_service_refl.
Qed.

Lemma _get_bucket_region_located kw b w c :
  bucket_location w b = Located c ->
  _get_bucket_region (_wrap_aws_client (mkClient kw None)) b w
  = (Ok (region_for c), logged [get_bucket_location kw b] (step w)).
Proof.
  intros H. unfold _get_bucket_region.
  rewrite (bind_ok _ _ _ _ _ (client_get_bucket_location_located kw b w c H)).
  reflexivity.
Qed.

Lemma _get_bucket_region_fails kw b w e :
  bucket_location w b = LocationFails e ->
  exists w', _get_bucket_region (_wrap_aws_client (mkClient kw None)) b w = (Raise e, w')
             /\ same_service w w'.
Proof.
  intros H. destruct (client_get_bucket_location_fails kw b w e H) as (w' & E & S).
  exists w'. split; [|exact S]. unfold _get_bucket_region.
  apply bind_raise. exact E.
Qed.

Lemma same_service_boto3 w w' : same_service w w' -> boto3 w' = boto3 w.
Proof. intros (_ & H & _). exact H. Qed.

Lemma asked_location_same_service self b w : same_service w (asked_location self b w).
Proof.
  unfold asked_location.
  eapply same_service_trans; [apply logged_same_service|].
  eapply same_service_trans; [apply step_same_service|apply logged_same_service].
Qed.

Lemma get_bucket_located self b w c :
  boto3 w = true ->
  bucket_location w b = Located c ->
  get_bucket self b w =
    (Ok (bucket_through (_client_kwargs self (Some (region_for c))) b),
     logged (resource_events self (Some (region_for c))) (asked_location self b w)).
Proof.
  intros H3 Hloc. unfold get_bucket.
  rewrite (bind_ok _ _ _ _ _ (make_s3_client_run self None w H3)).
  erewrite bind_ok.
  2:{ apply try_except_ok.
      rewrite (bind_ok _ _ _ _ _ (_get_bucket_region_located _ b (logged _ w) c Hloc)).
      reflexivity. }
  erewrite bind_ok.
  2:{ apply make_s3_resource_run.
      eapply eq_trans; [|exact H3].
      apply same_service_boto3, (asked_location_same_service self b w). }
  reflexivity.
Qed.

(** whatever client error the lookup raises, the handler fails on [ex] *)
Lemma get_bucket_client_error self b w response :
  boto3 w = true ->
  bucket_location w b = LocationFails (ClientError response) ->
  exists w', get_bucket self b w = (Raise (NameError "name 'ex' is not defined"), w')
             /\ same_service w w'.
Proof.
  intros H3 Hloc. unfold get_bucket.
  rewrite (bind_ok _ _ _ _ _ (make_s3_client_run self None w H3)).
  destruct (_get_bucket_region_fails (_client_kwargs self None) b
              (logged (client_events self) w) _ Hloc) as (w' & E & S).
  exists w'. split.
  - apply bind_raise.
    erewrite try_except_raise; [|apply bind_raise; exact E|reflexivity].
    reflexivity.
  - exact S.
Qed.

(** any other failure of the lookup leaves [get_bucket] as it is *)
Lemma get_bucket_other_error self b w e :
  boto3 w = true ->
  bucket_location w b = LocationFails e ->
  (forall response, e <> ClientError response) ->
  exists w', get_bucket self b w = (Raise e, w') /\ same_service w w'.
Proof.
  intros H3 Hloc Hne. unfold get_bucket.
  rewrite (bind_ok _ _ _ _ _ (make_s3_client_run self None w H3)).
  destruct (_get_bucket_region_fails (_client_kwargs self None) b
              (logged (client_events self) w) _ Hloc) as (w' & E & S).
  exists w'. split.
  - apply bind_raise.
    erewrite try_except_raise; [|apply bind_raise; exact E|reflexivity].
    destruct e; try reflexivity. exfalso. eapply Hne. reflexivity.
  - exact S.
Qed.

Lemma get_bucket_not_installed self b w :
  boto3 w = false ->
  get_bucket self b w = (Raise (ImportError "You must install boto3 to connect to S3"), w).
Proof.
  intros H. unfold get_bucket. apply bind_raise.
  unfold make_s3_client, bind, gets. rewrite H. reflexivity.
Qed.

(** *** Requests that cannot fail *)

Lemma request_answered {A} c e (answer : M A) w a w' :
  answer (logged [e] (step w)) = (Ok a, w') ->
  Boto.request c e answer w = (Ok a, w').
Proof.
  intros H.
  assert (R : (Boto.others_act ;; emit e ;; answer) w = (Ok a, w')).
  { unfold bind, emit. unfold step, logged in H.
    destruct (Boto.others_act w) as [r w1] eqn:E.
    assert (r = Ok tt) as ->.
    { unfold Boto.others_act in E. destruct (schedule w); inversion E; reflexivity. }
    simpl in H. exact H. }
  unfold Boto.request. destruct (client_retry c).
  - apply attempt_ok. exact R.
  - exact R.
Qed.

Lemma objects_filter_run b Prefix w :
  Boto.objects_filter b Prefix w =
    (Ok (map (fun o => mkObjectSummary (obj_name o))
             (Store.scan (objects (step w)) (bucket_name b) Prefix)),
     logged [list_objects (client_kwargs (meta_client (bucket_resource b))) (bucket_name b) Prefix]
            (step w)).
Proof. unfold Boto.objects_filter. apply request_answered. reflexivity. Qed.

(** *** A quiet world stays as it is *)

Lemma quiet_step w : quiet w -> step w = w.
Proof.
  unfold quiet, step, Boto.others_act. intros H. rewrite H. reflexivity.
Qed.

Lemma quiet_asked_location self b w :
  quiet w -> quiet (asked_location self b w) /\ objects (asked_location self b w) = objects w.
Proof.
  intros H. unfold asked_location.
  rewrite (quiet_step (logged (client_events self) w)) by exact H.
  split; [exact H|reflexivity].
Qed.

Lemma quiet_after_get_bucket self b c w :
  quiet w ->
  quiet (after_get_bucket self b c w) /\ objects (after_get_bucket self b c w) = objects w.
Proof.
  intros H. destruct (quiet_asked_location self b w H) as (Q & O).
  unfold after_get_bucket. split; [exact Q|exact O].
Qed.

Lemma after_get_bucket_same_service self b c w :
  same_service w (after_get_bucket self b c w).
Proof.
  unfold after_get_bucket.
  eapply same_service_trans; [apply asked_location_same_service|apply logged_same_service].
Qed.

(** *** [get_bucket] succeeds only when the lookup does *)

Lemma get_bucket_ok_inv self b w bucket w' :
  get_bucket self b w = (Ok bucket, w') ->
  boto3 w = true /\ exists c, bucket_location w b = Located c.
Proof.
  intros H. destruct (boto3 w) eqn:H3.
  - split; [reflexivity|].
    destruct (bucket_location w b) as [c|e] eqn:Hloc; [exists c; reflexivity|].
    exfalso. destruct e;
      try (destruct (get_bucket_other_error self b w _ H3 Hloc) as (w1 & E & _);
           [intros r; discriminate | rewrite E in H; discriminate]).
    destruct (get_bucket_client_error self b w _ H3 Hloc) as (w1 & E & _).
    rewrite E in H. discriminate.
  - rewrite (get_bucket_not_installed self b w H3) in H. discriminate.
Qed.

(** *** [ls] *)

Lemma base_uri_literal_prefix P :
  match Parse.GLOB_RE_match P with
  | Some (group1, _) => group1
  | None => P
  end = literal_prefix P.
Proof.
  unfold Parse.GLOB_RE_match, Parse.WILDCARDS.
  induction P as [|c rest IH]; [reflexivity|].
  cbn [Py.break_at literal_prefix Py.char_in existsb].
  rewrite orb_false_r.
  destruct (Ascii.eqb c "*" || Ascii.eqb c "?"); [reflexivity|].
  destruct (Py.break_at ["*"%char; "?"%char] rest) as [[before from]|];
    rewrite <- IH; reflexivity.
Qed.

Lemma ls_loop_filter scheme b P D keys :
  ls_loop scheme b P D keys =
    filter (fun uri => Fnmatch.fnmatchcase uri P || Fnmatch.fnmatchcase uri D)
           (map (fun k => scheme ++ "://" ++ b ++ "/" ++ key k) keys).
Proof.
  induction keys as [|k rest IH]; [reflexivity|].
  simpl ls_loop. rewrite IH. simpl map. simpl filter.
  destruct (Fnmatch.fnmatchcase _ P || Fnmatch.fnmatchcase _ D); reflexivity.
Qed.

(** the pattern the code builds for directories is the spec's, except on
    the empty pattern, which [ls] refuses before it gets there *)
Lemma dir_glob_directory_pattern P :
  P <> "" ->
  (if Py.truthy (Some P) && negb (Py.endswith P "/") then P ++ "/*" else P ++ "*")
  = directory_pattern P.
Proof.
  intros H. unfold directory_pattern. destruct P as [|c rest]; [congruence|].
  simpl Py.truthy. simpl andb. destruct (Py.endswith _ _); reflexivity.
Qed.

Lemma parse_s3_uri_run uri w :
  parse_s3_uri uri w =
    (match Parse.parse_s3_uri uri with
     | Some locator => Ok locator
     | None => Raise (ValueError ("Invalid S3 URI: " ++ uri))
     end, w).
Proof. unfold parse_s3_uri. destruct (Parse.parse_s3_uri uri); reflexivity. Qed.

(** the first step of a method that parses its URI: [Hp] says how it parses *)
Ltac parsed Hp :=
  erewrite bind_ok; [|rewrite parse_s3_uri_run, Hp; reflexivity];
  cbv beta iota zeta.


Lemma literal_prefix_nonempty P b n :
  Parse.parse_s3_uri (literal_prefix P) = Some (b, n) -> P <> "".
Proof. intros H E. subst P. discriminate. Qed.

Lemma ls_located self P w b n c :
  Parse.parse_s3_uri (literal_prefix P) = Some (b, n) ->
  boto3 w = true ->
  bucket_location w b = Located c ->
  ls self P w =
    (Ok (listing P b n (objects (step (after_get_bucket self b c w)))),
     after_ls self b n c w).
Proof.
  intros Hp H3 Hloc. unfold ls. rewrite base_uri_literal_prefix.
  parsed Hp.
  rewrite (bind_ok _ _ _ _ _ (get_bucket_located self b w c H3 Hloc)).
  rewrite (bind_ok _ _ _ _ _ (objects_filter_run _ n _)).
  unfold ret. rewrite ls_loop_filter, map_map.
  rewrite (dir_glob_directory_pattern P (literal_prefix_nonempty P b n Hp)).
  reflexivity.
Qed.

(** what a successful [ls] did *)
Lemma ls_ok_inv self P w uris w' :
  ls self P w = (Ok uris, w') ->
  exists b n c,
    Parse.parse_s3_uri (literal_prefix P) = Some (b, n)
    /\ boto3 w = true
    /\ bucket_location w b = Located c
    /\ uris = listing P b n (objects (step (after_get_bucket self b c w)))
    /\ w' = after_ls self b n c w.
Proof.
  intros H.
  destruct (Parse.parse_s3_uri (literal_prefix P)) as [[b n]|] eqn:Hp.
  2:{ unfold ls in H. rewrite base_uri_literal_prefix in H.
      erewrite bind_raise in H; [discriminate|].
      rewrite parse_s3_uri_run, Hp. reflexivity. }
  destruct (get_bucket self b w) as [[bucket|e] w1] eqn:Hb.
  2:{ unfold ls in H. rewrite base_uri_literal_prefix in H.
      erewrite bind_ok in H; [|rewrite parse_s3_uri_run, Hp; reflexivity].
      cbv beta iota zeta in H.
      rewrite (bind_raise _ _ _ _ _ Hb) in H. discriminate. }
  destruct (get_bucket_ok_inv _ _ _ _ _ Hb) as (H3 & c & Hloc).
  rewrite (ls_located self P w b n c Hp H3 Hloc) in H.
  inversion H; subst uris w'; clear H.
  exists b, n, c. repeat split; assumption.
Qed.

(** the empty pattern, on which the code's directory pattern is not the
    spec's, is refused before any pattern is built *)
Example ls_of_the_empty_pattern :
  ls Example.fs "" Example.world = (Raise (ValueError "Invalid S3 URI: "), Example.world).
Proof. reflexivity. Qed.

(** ** C2 *)

(** C2: whenever [ls(P)] yields, it scanned the bucket with the key part of
    the text of [P] before its first wildcard (all of [P] when it has
    none), and it yields exactly the rebuilt URIs of the scanned keys that
    match [P] or the directory pattern, [P + '/*'] when [P] does not end in
    ['/'] and [P + '*'] when it does, in the order of the scan. *)
Theorem ls_yields_the_matching_uris self P w uris w' :
  ls self P w = (Ok uris, w') ->
  exists bucket base_name store kwargs earlier,
    Parse.parse_s3_uri (literal_prefix P) = Some (bucket, base_name)
    /\ trace w' = (earlier ++ [list_objects kwargs bucket base_name])%list
    /\ uris = filter (fun uri => Fnmatch.fnmatchcase uri P
                                 || Fnmatch.fnmatchcase uri (directory_pattern P))
                (map (uri_of (Parse.urlparse_scheme P) bucket)
                     (Store.scan store bucket base_name))
    /\ (quiet w -> store = objects w).
Proof.
  intros H. destruct (ls_ok_inv _ _ _ _ _ H) as (b & n & c & Hp & H3 & Hloc & -> & ->).
  exists b, n, (objects (step (after_get_bucket self b c w))),
    (_client_kwargs self (Some (region_for c))),
    (trace (step (after_get_bucket self b c w))).
  repeat split; try assumption.
  intros Q. destruct (quiet_after_get_bucket self b c w Q) as (Q1 & O1).
  rewrite (quiet_step _ Q1). exact O1.
Qed.

Lemma ls_yields_the_matching_uris_witness :
  ls Example.fs "s3://walrus/data" Example.world
    = (Ok ["s3://walrus/data/foo"; "s3://walrus/data/bar"; "s3://walrus/data/qux"],
       snd (ls Example.fs "s3://walrus/data" Example.world))
  /\ exists bucket base_name store kwargs earlier,
      Parse.parse_s3_uri (literal_prefix "s3://walrus/data") = Some (bucket, base_name)
      /\ trace (snd (ls Example.fs "s3://walrus/data" Example.world))
         = (earlier ++ [list_objects kwargs bucket base_name])%list
      /\ ["s3://walrus/data/foo"; "s3://walrus/data/bar"; "s3://walrus/data/qux"]
         = filter (fun uri => Fnmatch.fnmatchcase uri "s3://walrus/data"
                              || Fnmatch.fnmatchcase uri (directory_pattern "s3://walrus/data"))
             (map (uri_of (Parse.urlparse_scheme "s3://walrus/data") bucket)
                  (Store.scan store bucket base_name))
      /\ (quiet Example.world -> store = objects Example.world).
Proof.
  split; [vm_compute; reflexivity|].
  apply (ls_yields_the_matching_uris Example.fs "s3://walrus/data" Example.world).
  vm_compute. reflexivity.
Defined.


(** *** [get_s3_key] *)

(** once it has the bucket, [get_s3_key] fails on [bucket.get_key] *)
Lemma get_s3_key_located self uri w b name c :
  Parse.parse_s3_uri uri = Some (b, name) ->
  boto3 w = true ->
  bucket_location w b = Located c ->
  get_s3_key self uri w =
    (Raise (AttributeError "'s3.Bucket' object has no attribute 'get_key'"),
     after_get_bucket self b c w).
Proof.
  intros Hp H3 Hloc. unfold get_s3_key.
  parsed Hp.
  erewrite bind_ok.
  2:{ apply try_except_ok.
      rewrite (bind_ok _ _ _ _ _ (get_bucket_located self b w c H3 Hloc)). reflexivity. }
  reflexivity.
Qed.

(** what [get_s3_key] makes of a failure of [get_bucket] *)
Lemma get_s3_key_bucket_error self uri w b name e w' :
  Parse.parse_s3_uri uri = Some (b, name) ->
  get_bucket self b w = (Raise e, w') ->
  get_s3_key self uri w =
    if boto w' then
      match e with
      | S3ResponseError status =>
          if Z.eqb status 404 then (Ok None, w') else (Raise e, w')
      | _ => (Raise e, w')
      end
    else (Raise (AttributeError "'NoneType' object has no attribute 'exception'"), w').
Proof.
  intros Hp Hb. unfold get_s3_key.
  parsed Hp.
  unfold try_except, bind at 1. unfold bind at 1. rewrite Hb.
  unfold boto_exception_S3ResponseError, bind, gets.
  destruct (boto w'); [|reflexivity].
  unfold ret. destruct e; try reflexivity.
  simpl. destruct (Z.eqb status 404); reflexivity.
Qed.

Lemma get_s3_key_invalid self uri w :
  Parse.parse_s3_uri uri = None ->
  get_s3_key self uri w = (Raise (ValueError ("Invalid S3 URI: " ++ uri)), w).
Proof.
  intros Hp. unfold get_s3_key. apply bind_raise. rewrite parse_s3_uri_run, Hp. reflexivity.
Qed.

(** ** C1 *)

(** C1 (the code departs from it): when the caller may not read the
    location of a bucket (status 403), [get_bucket] neither logs the
    warning nor returns a bucket handle: its handler reads the unbound
    name [ex] and [get_bucket] raises [NameError].  A lookup that fails
    with status 404 ends the same way instead of being propagated. *)
Theorem get_bucket_access_denied_raises_NameError :
  bucket_location Example.world "emr"
    = LocationFails (Example.client_error "AccessDenied" 403)
  /\ fst (get_bucket Example.fs "emr" Example.world)
     = Raise (NameError "name 'ex' is not defined")
  /\ trace (snd (get_bucket Example.fs "emr" Example.world))
     = [ log_debug "creating S3 client (default)";
         boto3_client (mkKwargs None None None None None);
         get_bucket_location (mkKwargs None None None None None) "emr" ]
  /\ fst (get_bucket Example.fs "nowhere" Example.world)
     = Raise (NameError "name 'ex' is not defined").
Proof. vm_compute. repeat split. Qed.

(** ** C10 *)

(** C10 (the code departs from it): for a URI whose bucket does not exist,
    the lookup inside [get_bucket] fails with a client error of status
    404; [get_s3_key] then raises [NameError] where the claim has it return
    [None].  For a key that an existing bucket does not hold it does not
    return [None] either: the bucket is boto3's and has no [get_key]. *)
Theorem get_s3_key_missing_bucket_raises_NameError :
  bucket_location Example.world "nowhere"
    = LocationFails (Example.client_error "NoSuchBucket" 404)
  /\ fst (get_s3_key Example.fs "s3://nowhere/data/foo" Example.world)
     = Raise (NameError "name 'ex' is not defined")
  /\ bucket_location Example.world "walrus" = Located None
  /\ Store.get Example.store "walrus" "data/none" = None
  /\ fst (get_s3_key Example.fs "s3://walrus/data/none" Example.world)
     = Raise (AttributeError "'s3.Bucket' object has no attribute 'get_key'").
Proof. vm_compute. repeat split. Qed.

(** ** C3 *)

(** the [try] of [exists] guards nothing: [exists] is [any] of the listing *)
Lemma exists_is_any_ls self P w :
  exists_ self P w = builtin_any (ls self P) w.
Proof. reflexivity. Qed.

Lemma exists_propagates self P w e w' :
  ls self P w = (Raise e, w') -> exists_ self P w = (Raise e, w').
Proof.
  intros H. rewrite exists_is_any_ls. unfold builtin_any. apply bind_raise. exact H.
Qed.

(** every URI [ls] yields is a non-empty string *)
Lemma exists_true_iff_ls_yields self P w uris w' :
  ls self P w = (Ok uris, w') ->
  exists_ self P w = (Ok (negb (match uris with [] => true | _ => false end)), w').
Proof.
  intros H. rewrite exists_is_any_ls. unfold builtin_any.
  rewrite (bind_ok _ _ _ _ _ H). unfold ret. f_equal. f_equal.
  destruct (ls_ok_inv _ _ _ _ _ H) as (b & n & c & _ & _ & _ & E & _).
  unfold listing in E.
  destruct uris as [|u rest]; [reflexivity|].
  assert (In u (u :: rest)) as Hin by (left; reflexivity).
  rewrite E in Hin. apply filter_In in Hin. destruct Hin as (Hin & _).
  apply in_map_iff in Hin. destruct Hin as (o & Eo & _).
  simpl. unfold uri_of in Eo. rewrite <- Eo.
  destruct (Parse.urlparse_scheme P); reflexivity.
Qed.

(** C3 (the code departs from it): on a path whose bucket does not exist
    [exists] does not return false.  The lookup fails with a not-found
    error, the listing raises, and [exists] lets the exception through:
    [NameError] when the lookup raised a client error of status 404, the
    error itself when it raised the old library's [S3ResponseError] 404. *)
Theorem exists_propagates_not_found :
  fst (exists_ Example.fs "s3://nowhere/data/*" Example.world)
    = Raise (NameError "name 'ex' is not defined")
  /\ fst (exists_ Example.fs "s3://old/data/*" Example.world)
     = Raise (S3ResponseError 404)
  /\ fst (exists_ Example.fs "s3://walrus/data/*" Example.world) = Ok true
  /\ fst (exists_ Example.fs "s3://walrus/nothing/*" Example.world) = Ok false.
Proof. vm_compute. repeat split. Qed.


(** *** Splitting strings *)

Lemma append_assoc (a b c : string) : (a ++ b) ++ c = a ++ (b ++ c).
Proof. induction a as [|x a IH]; simpl; [reflexivity|rewrite IH; reflexivity]. Qed.

Lemma append_length (a b : string) :
  String.length (a ++ b) = (String.length a + String.length b)%nat.
Proof. induction a as [|x a IH]; simpl; [reflexivity|rewrite IH; reflexivity]. Qed.

Lemma strip_prefix_some p : forall s r,
  Py.strip_prefix p s = Some r -> s = p ++ r.
Proof.
  induction p as [|a p IH]; intros s r H; simpl in H.
  - inversion H. reflexivity.
  - destruct s as [|b s]; [discriminate|].
    destruct (Ascii.eqb a b) eqn:E; [|discriminate].
    apply Ascii.eqb_eq in E. subst b. simpl. rewrite (IH _ _ H). reflexivity.
Qed.

Lemma strip_prefix_app_some p : forall s r t,
  Py.strip_prefix p s = Some r -> Py.strip_prefix p (s ++ t) = Some (r ++ t).
Proof.
  induction p as [|a p IH]; intros s r t H; simpl in H.
  - inversion H. reflexivity.
  - destruct s as [|b s]; [discriminate|]. simpl.
    destruct (Ascii.eqb a b); [|discriminate]. apply IH. exact H.
Qed.

Lemma strip_prefix_app_none p : forall s t,
  Py.strip_prefix p s = None ->
  (String.length p <= String.length s)%nat ->
  Py.strip_prefix p (s ++ t) = None.
Proof.
  induction p as [|a p IH]; intros s t H L; simpl in H.
  - discriminate.
  - destruct s as [|b s]; [simpl in L; lia|]. simpl.
    destruct (Ascii.eqb a b); [|reflexivity]. apply IH; [exact H|simpl in L; lia].
Qed.

Lemma split_once_eq sep s :
  Py.split_once sep s =
    match Py.strip_prefix sep s with
    | Some after => Some (EmptyString, after)
    | None =>
        match s with
        | EmptyString => None
        | String c rest =>
            match Py.split_once sep rest with
            | Some (before, after) => Some (String c before, after)
            | None => None
            end
        end
    end.
Proof. destruct s; reflexivity. Qed.

Lemma split_once_some sep : forall s x y,
  Py.split_once sep s = Some (x, y) -> s = x ++ sep ++ y.
Proof.
  induction s as [|c rest IH]; intros x y H; rewrite split_once_eq in H.
  - destruct (Py.strip_prefix sep "") eqn:E; [|discriminate].
    inversion H; subst. apply strip_prefix_some in E. exact E.
  - destruct (Py.strip_prefix sep (String c rest)) eqn:E.
    + inversion H; subst. apply strip_prefix_some in E. exact E.
    + destruct (Py.split_once sep rest) as [[before after]|] eqn:R; [|discriminate].
      inversion H; subst. simpl. rewrite <- (IH _ _ eq_refl). reflexivity.
Qed.

Lemma split_once_length sep s x y :
  Py.split_once sep s = Some (x, y) -> (String.length sep <= String.length s)%nat.
Proof.
  intros H. apply split_once_some in H. subst s. rewrite !append_length. lia.
Qed.

Lemma split_once_app sep t : forall s x y,
  Py.split_once sep s = Some (x, y) ->
  Py.split_once sep (s ++ t) = Some (x, y ++ t).
Proof.
  induction s as [|c rest IH]; intros x y H;
    rewrite split_once_eq in H; rewrite split_once_eq.
  - destruct (Py.strip_prefix sep "") eqn:E; [|discriminate].
    inversion H; subst. rewrite (strip_prefix_app_some _ _ _ t E). reflexivity.
  - destruct (Py.strip_prefix sep (String c rest)) eqn:E.
    + inversion H; subst. rewrite (strip_prefix_app_some _ _ _ t E). reflexivity.
    + destruct (Py.split_once sep rest) as [[before after]|] eqn:R; [|discriminate].
      inversion H; subst.
      rewrite (strip_prefix_app_none _ _ t E).
      * simpl. rewrite (IH _ _ eq_refl). reflexivity.
      * apply split_once_length in R. simpl. lia.
Qed.

Lemma strip_prefix_slash c rest :
  Py.strip_prefix "/" (String c rest) = if Ascii.eqb "/" c then Some rest else None.
Proof. reflexivity. Qed.

(** the text before the first ['/'] holds no ['/'] *)
Lemma split_once_slash_rebuild : forall s x y k,
  Py.split_once "/" s = Some (x, y) ->
  Py.split_once "/" (x ++ "/" ++ k) = Some (x, k).
Proof.
  induction s as [|c rest IH]; intros x y k H; rewrite split_once_eq in H.
  - discriminate.
  - rewrite strip_prefix_slash in H. destruct (Ascii.eqb "/" c) eqn:E.
    + inversion H; subst. reflexivity.
    + destruct (Py.split_once "/" rest) as [[before after]|] eqn:R; [|discriminate].
      inversion H; subst. rewrite split_once_eq.
      change (String c before ++ "/" ++ k) with (String c (before ++ "/" ++ k)).
      rewrite strip_prefix_slash, E.
      rewrite (IH _ _ k eq_refl). reflexivity.
Qed.

Lemma literal_prefix_app P : exists tail, P = literal_prefix P ++ tail.
Proof.
  induction P as [|c rest (tail & IH)].
  - exists "". reflexivity.
  - simpl. destruct (Ascii.eqb c "*" || Ascii.eqb c "?").
    + exists (String c rest). reflexivity.
    + exists tail. simpl. rewrite <- IH. reflexivity.
Qed.

Lemma split_once_scheme sch k :
  In sch Parse.S3_SCHEMES ->
  Py.split_once "://" (sch ++ "://" ++ k) = Some (sch, k).
Proof.
  intros [<-|[<-|[]]]; reflexivity.
Qed.

(** the URI [ls] rebuilds for a key of the bucket parses back to the bucket
    and the key *)
Lemma parse_s3_uri_rebuilt P b n k :
  Parse.parse_s3_uri (literal_prefix P) = Some (b, n) ->
  Parse.parse_s3_uri (Parse.urlparse_scheme P ++ "://" ++ b ++ "/" ++ k) = Some (b, k).
Proof.
  unfold Parse.parse_s3_uri at 1. intros H.
  destruct (Py.split_once "://" (literal_prefix P)) as [[sch rest]|] eqn:E1; [|discriminate].
  destruct (existsb (String.eqb sch) Parse.S3_SCHEMES) eqn:E2; [|discriminate].
  destruct (Py.split_once "/" rest) as [[bk ky]|] eqn:E3; [|discriminate].
  destruct bk as [|c0 bk]; [discriminate|]. inversion H; subst b n; clear H.
  assert (Hs : Parse.urlparse_scheme P = sch).
  { destruct (literal_prefix_app P) as (tail & EP).
    unfold Parse.urlparse_scheme. rewrite EP.
    rewrite (split_once_app _ tail _ _ _ E1). reflexivity. }
  rewrite Hs. unfold Parse.parse_s3_uri.
  assert (Hin : In sch Parse.S3_SCHEMES).
  { apply existsb_exists in E2. destruct E2 as (x & Hx & Ex).
    apply String.eqb_eq in Ex. subst x. exact Hx. }
  rewrite (split_once_scheme sch _ Hin), E2.
  rewrite (split_once_slash_rebuild _ _ _ k E3). reflexivity.
Qed.


(** *** The objects [ls] yields *)

Lemma listing_matched P b n objs :
  listing P b n objs = map (uri_of (Parse.urlparse_scheme P) b) (matched P b n objs).
Proof.
  unfold listing, matched.
  induction (Store.scan objs b n) as [|o rest IH]; [reflexivity|].
  simpl. destruct (Fnmatch.fnmatchcase _ P || Fnmatch.fnmatchcase _ _); simpl;
    rewrite IH; reflexivity.
Qed.

(** *** Methods that ask the bucket for a key *)

Lemma make_s3_key_located self uri w b name c :
  Parse.parse_s3_uri uri = Some (b, name) ->
  boto3 w = true ->
  bucket_location w b = Located c ->
  make_s3_key self uri w
  = (Raise (AttributeError "'s3.Bucket' object has no attribute 'new_key'"),
     after_get_bucket self b c w).
Proof.
  intros Hp H3 Hloc. unfold make_s3_key.
  parsed Hp.
  rewrite (bind_ok _ _ _ _ _ (get_bucket_located self b w c H3 Hloc)). reflexivity.
Qed.

Lemma after_ls_same_service self b n c w : same_service w (after_ls self b n c w).
Proof.
  unfold after_ls.
  eapply same_service_trans; [apply after_get_bucket_same_service|].
  eapply same_service_trans; [apply step_same_service|apply logged_same_service].
Qed.

(** the URIs [ls] yields are URIs of the bucket it scanned: [get_s3_key]
    gets as far with them as with any other URI of that bucket *)
Lemma get_s3_key_listed self P b n c w o :
  Parse.parse_s3_uri (literal_prefix P) = Some (b, n) ->
  boto3 w = true ->
  bucket_location w b = Located c ->
  get_s3_key self (uri_of (Parse.urlparse_scheme P) b o) w
  = (Raise (AttributeError "'s3.Bucket' object has no attribute 'get_key'"),
     after_get_bucket self b c w).
Proof.
  intros Hp H3 Hloc.
  exact (get_s3_key_located self _ w b (obj_name o) c
           (parse_s3_uri_rebuilt P b n _ Hp) H3 Hloc).
Qed.

Lemma du_located self P w b n c :
  Parse.parse_s3_uri (literal_prefix P) = Some (b, n) ->
  boto3 w = true ->
  bucket_location w b = Located c ->
  du self P w
  = match listing P b n (objects (step (after_get_bucket self b c w))) with
    | [] => (Ok 0%Z, after_ls self b n c w)
    | _ :: _ =>
        (Raise (AttributeError "'s3.Bucket' object has no attribute 'get_key'"),
         after_get_bucket self b c (after_ls self b n c w))
    end.
Proof.
  intros Hp H3 Hloc. unfold du.
  rewrite (bind_ok _ _ _ _ _ (ls_located self P w b n c Hp H3 Hloc)).
  rewrite listing_matched.
  destruct (matched P b n (objects (step (after_get_bucket self b c w)))) as [|o rest];
    [reflexivity|].
  destruct (after_ls_same_service self b n c w) as (_ & S3 & Sl).
  cbn [map sum_sizes]. apply bind_raise. unfold size_of. apply bind_raise.
  apply (get_s3_key_listed self P b n c _ o Hp).
  - rewrite S3. exact H3.
  - rewrite Sl. exact Hloc.
Qed.

(** ** C5 *)

(** C5 (the code departs from it): [touchz] makes no empty object and
    raises no conflict error.  Its first statement is [get_s3_key(dest)],
    which fails on [bucket.get_key]: whether nothing, an empty object or a
    non-empty object is stored at the path, [touchz] raises
    [AttributeError] once [get_bucket] has returned, and the store is as
    it was. *)
Theorem touchz_raises_AttributeError :
  Store.get Example.store "walrus" "fresh" = None
  /\ fst (touchz Example.fs "s3://walrus/fresh" Example.world)
     = Raise (AttributeError "'s3.Bucket' object has no attribute 'get_key'")
  /\ objects (snd (touchz Example.fs "s3://walrus/fresh" Example.world)) = Example.store
  /\ trace (snd (touchz Example.fs "s3://walrus/fresh" Example.world))
     = [ log_debug "creating S3 client (default)";
         boto3_client (mkKwargs None None None None None);
         get_bucket_location (mkKwargs None None None None None) "walrus";
         log_debug "creating S3 resource (us-east-1)";
         boto3_resource (mkKwargs None None None None (Some "us-east-1")) ]
  /\ Store.get Example.store "walrus" "empty" = Some (mkObj "walrus" "empty" 0)
  /\ fst (touchz Example.fs "s3://walrus/empty" Example.world)
     = Raise (AttributeError "'s3.Bucket' object has no attribute 'get_key'")
  /\ Store.get Example.store "walrus" "data/foo" = Some (mkObj "walrus" "data/foo" 10)
  /\ fst (touchz Example.fs "s3://walrus/data/foo" Example.world)
     = Raise (AttributeError "'s3.Bucket' object has no attribute 'get_key'")
  /\ objects (snd (touchz Example.fs "s3://walrus/data/foo" Example.world))
     = Example.store.
Proof. vm_compute. repeat split. Qed.

(** ** C8 *)

(** C8 (the code departs from it): [du] returns no sum.  [ls] yields the
    three objects of sizes 10, 20 and 30, and [du] fails on the first of
    them: the term [get_s3_key(uri).size] raises [AttributeError] on
    [bucket.get_key].  [du] returns only when [ls] yields nothing, and
    then 0. *)
Theorem du_raises_AttributeError :
  fst (ls Example.fs "s3://walrus/data/*" Example.world)
    = Ok ["s3://walrus/data/foo"; "s3://walrus/data/bar"; "s3://walrus/data/qux"]
  /\ map obj_size (matched "s3://walrus/data/*" "walrus" "data/" Example.store)
     = [10; 20; 30]%Z
  /\ fst (du Example.fs "s3://walrus/data/*" Example.world)
     = Raise (AttributeError "'s3.Bucket' object has no attribute 'get_key'")
  /\ fst (ls Example.fs "s3://walrus/other" Example.world) = Ok ["s3://walrus/other"]
  /\ fst (du Example.fs "s3://walrus/other" Example.world)
     = Raise (AttributeError "'s3.Bucket' object has no attribute 'get_key'")
  /\ fst (ls Example.fs "s3://walrus/nothing/*" Example.world) = Ok []
  /\ fst (du Example.fs "s3://walrus/nothing/*" Example.world) = Ok 0%Z.
Proof. vm_compute. repeat split. Qed.

(** *** Patterns without special characters *)

Lemma literal_app a b : literal (a ++ b) = literal a && literal b.
Proof.
  induction a as [|c a IH]; simpl; [reflexivity|].
  rewrite IH, andb_assoc. reflexivity.
Qed.

Lemma translate_literal lit q :
  literal lit = true ->
  Fnmatch.translate 0 (lit ++ q)
  = (map Fnmatch.TLit (list_ascii_of_string lit) ++ Fnmatch.translate 0 q)%list.
Proof.
  induction lit as [|c lit IH]; intros H; [reflexivity|].
  simpl in H. apply andb_true_iff in H. destruct H as (Hc & Hl).
  apply negb_true_iff in Hc. apply orb_false_iff in Hc. destruct Hc as (Hc & H3).
  apply orb_false_iff in Hc. destruct Hc as (H1 & H2).
  change (String c lit ++ q) with (String c (lit ++ q)).
  cbn [Fnmatch.translate]. rewrite H1, H2, H3, (IH Hl). reflexivity.
Qed.

Lemma tmatch_literal lit ts : forall u,
  Fnmatch.tmatch (map Fnmatch.TLit (list_ascii_of_string lit) ++ ts)%list u
  = match Py.strip_prefix lit u with
    | Some rest => Fnmatch.tmatch ts rest
    | None => false
    end.
Proof.
  induction lit as [|c lit IH]; intros u; [reflexivity|].
  cbn [list_ascii_of_string map app Fnmatch.tmatch Py.strip_prefix].
  destruct u as [|x u]; [reflexivity|].
  cbn [Fnmatch.tok_accepts]. destruct (Ascii.eqb c x); [apply IH|reflexivity].
Qed.

Lemma tmatch_nil u : Fnmatch.tmatch [] u = true -> u = "".
Proof. destruct u; [reflexivity|discriminate]. Qed.

Lemma append_empty_r (s : string) : s ++ "" = s.
Proof. induction s as [|c s IH]; simpl; [reflexivity|rewrite IH; reflexivity]. Qed.

(** a pattern without special characters matches itself only *)
Lemma fnmatchcase_literal u P :
  literal P = true -> Fnmatch.fnmatchcase u P = true -> u = P.
Proof.
  intros L H. unfold Fnmatch.fnmatchcase in H.
  rewrite <- (append_empty_r P) in H. rewrite (translate_literal P "" L) in H.
  rewrite tmatch_literal in H.
  destruct (Py.strip_prefix P u) as [rest|] eqn:E; [|discriminate].
  apply tmatch_nil in H. subst rest. apply strip_prefix_some in E.
  rewrite E. apply append_empty_r.
Qed.

(** such a pattern followed by [*] matches what starts with it *)
Lemma fnmatchcase_literal_star u lit :
  literal lit = true -> Fnmatch.fnmatchcase u (lit ++ "*") = true ->
  exists rest, u = lit ++ rest.
Proof.
  intros L H. unfold Fnmatch.fnmatchcase in H.
  rewrite (translate_literal lit "*" L) in H. rewrite tmatch_literal in H.
  destruct (Py.strip_prefix lit u) as [rest|] eqn:E; [|discriminate].
  exists rest. apply strip_prefix_some. exact E.
Qed.

Lemma directory_pattern_as_directory P : directory_pattern P = as_directory P ++ "*".
Proof.
  unfold directory_pattern, as_directory. destruct (Py.endswith P "/"); [reflexivity|].
  rewrite append_assoc. reflexivity.
Qed.

Lemma literal_as_directory P : literal P = true -> literal (as_directory P) = true.
Proof.
  intros L. unfold as_directory. destruct (Py.endswith P "/"); [exact L|].
  rewrite literal_app, L. reflexivity.
Qed.

Lemma ls_literal self P w uris w' u :
  literal P = true ->
  ls self P w = (Ok uris, w') ->
  In u uris ->
  u = P \/ exists rest, u = as_directory P ++ rest.
Proof.
  intros L H I. destruct (ls_ok_inv _ _ _ _ _ H) as (b & n & c & _ & _ & _ & E & _).
  subst uris. unfold listing in I. apply filter_In in I. destruct I as (_ & I).
  apply orb_true_iff in I. destruct I as [I|I].
  - left. apply (fnmatchcase_literal u P L I).
  - right. rewrite directory_pattern_as_directory in I.
    apply (fnmatchcase_literal_star u _ (literal_as_directory P L) I).
Qed.

(** ** C7 *)

(** C7, as the code has it: for a pattern [P] without special characters
    ([*], [?], [[]), every URI [ls(P)] yields is [P] itself or lies under
    [P] taken as a directory, that is, starts with [P + '/'] (with [P]
    when [P] ends in ['/']).  It may yield several. *)
Theorem ls_of_a_plain_path_yields_it_or_its_directory self P w uris w' u :
  literal P = true ->
  ls self P w = (Ok uris, w') ->
  In u uris ->
  u = P \/ exists rest, u = as_directory P ++ rest.
Proof. exact (ls_literal self P w uris w' u). Qed.

Lemma ls_of_a_plain_path_yields_it_or_its_directory_witness :
  "s3://walrus/data/bar" = "s3://walrus/data"
  \/ exists rest, "s3://walrus/data/bar" = as_directory "s3://walrus/data" ++ rest.
Proof.
  apply (ls_of_a_plain_path_yields_it_or_its_directory Example.fs "s3://walrus/data"
           Example.world
           ["s3://walrus/data/foo"; "s3://walrus/data/bar"; "s3://walrus/data/qux"]
           (snd (ls Example.fs "s3://walrus/data" Example.world))).
  - reflexivity.
  - vm_compute. reflexivity.
  - simpl. auto.
Defined.

(** C7, as the spec has it, fails: a path without wildcard lists the
    directory of that name. *)
Lemma ls_of_a_plain_path_yields_several :
  literal "s3://walrus/data" = true
  /\ fst (ls Example.fs "s3://walrus/data" Example.world)
     = Ok ["s3://walrus/data/foo"; "s3://walrus/data/bar"; "s3://walrus/data/qux"]
  /\ ~ (forall self P w uris,
          literal P = true -> fst (ls self P w) = Ok uris -> uris = [] \/ uris = [P]).
Proof.
  split; [reflexivity|]. split; [vm_compute; reflexivity|].
  intros H.
  destruct (H Example.fs "s3://walrus/data" Example.world
              ["s3://walrus/data/foo"; "s3://walrus/data/bar"; "s3://walrus/data/qux"]
              eq_refl) as [E|E]; try discriminate.
  vm_compute. reflexivity.
Qed.

(** ** C6 *)

Lemma _client_kwargs_static self region :
  Py.truthy (_s3_endpoint_url self) = true ->
  _client_kwargs self region = static_kwargs self.
Proof. intros H. unfold _client_kwargs. rewrite H. reflexivity. Qed.

(** C6, as the code has it: with a static endpoint override, [get_bucket]
    makes its client and its resource with that endpoint and the static
    region hint, whatever location the bucket reports; it still asks for
    the bucket's location, through that client. *)
Theorem get_bucket_with_endpoint self b w c :
  Py.truthy (_s3_endpoint_url self) = true ->
  boto3 w = true ->
  bucket_location w b = Located c ->
  fst (get_bucket self b w) = Ok (bucket_through (static_kwargs self) b)
  /\ trace (snd (get_bucket self b w))
     = (trace w ++
        [ log_debug ("creating S3 client (" ++ describe (static_kwargs self) ++ ")");
          boto3_client (static_kwargs self);
          get_bucket_location (static_kwargs self) b;
          log_debug ("creating S3 resource (" ++ describe (static_kwargs self) ++ ")");
          boto3_resource (static_kwargs self) ])%list.
Proof.
  intros He H3 Hloc. rewrite (get_bucket_located self b w c H3 Hloc).
  unfold after_get_bucket, asked_location, resource_events, client_events.
  rewrite !(_client_kwargs_static self _ He). split; [reflexivity|].
  unfold step, Boto.others_act. simpl.
  destruct (schedule w); simpl; rewrite <- !app_assoc; reflexivity.
Qed.

Lemma get_bucket_with_endpoint_witness :
  (fst (get_bucket Example.fs_endpoint "walrus" Example.world)
     = Ok (bucket_through (static_kwargs Example.fs_endpoint) "walrus")
   /\ trace (snd (get_bucket Example.fs_endpoint "walrus" Example.world))
      = (trace Example.world ++
         [ log_debug ("creating S3 client ("
                      ++ describe (static_kwargs Example.fs_endpoint) ++ ")");
           boto3_client (static_kwargs Example.fs_endpoint);
           get_bucket_location (static_kwargs Example.fs_endpoint) "walrus";
           log_debug ("creating S3 resource ("
                      ++ describe (static_kwargs Example.fs_endpoint) ++ ")");
           boto3_resource (static_kwargs Example.fs_endpoint) ])%list)
  /\ bucket_location Example2.europe "frankfurt" = Located (Some "eu-central-1")
  /\ fst (get_bucket Example.fs_endpoint "frankfurt" Example2.europe)
     = Ok (bucket_through
             (mkKwargs None None None (Some "https://s3.example.com") (Some "eu-west-1"))
             "frankfurt").
Proof.
  split; [|split; [reflexivity|]].
  - apply (get_bucket_with_endpoint Example.fs_endpoint "walrus" Example.world None);
      reflexivity.
  - apply (proj1 (get_bucket_with_endpoint Example.fs_endpoint "frankfurt"
                    Example2.europe (Some "eu-central-1") eq_refl eq_refl eq_refl)).
Defined.

(** C6, as the spec has it, fails: with an endpoint override [get_bucket]
    still asks for the location of the bucket. *)
Lemma get_bucket_with_endpoint_asks_location :
  _s3_endpoint_url Example.fs_endpoint = Some "https://s3.example.com"
  /\ trace (snd (get_bucket Example.fs_endpoint "walrus" Example.world))
     = [ log_debug "creating S3 client (https://s3.example.com)";
         boto3_client (static_kwargs Example.fs_endpoint);
         get_bucket_location (static_kwargs Example.fs_endpoint) "walrus";
         log_debug "creating S3 resource (https://s3.example.com)";
         boto3_resource (static_kwargs Example.fs_endpoint) ]
  /\ ~ (forall self b w,
          Py.truthy (_s3_endpoint_url self) = true ->
          trace w = [] ->
          forall through b',
            ~ In (get_bucket_location through b') (trace (snd (get_bucket self b w)))).
Proof.
  split; [reflexivity|]. split; [vm_compute; reflexivity|].
  intros H.
  apply (H Example.fs_endpoint "walrus" Example.world eq_refl eq_refl
           (static_kwargs Example.fs_endpoint) "walrus").
  vm_compute. right. right. left. reflexivity.
Qed.

(** ** C9 *)

Lemma sum_sizes_empty_endpoint (key secret token s3_region : option string) uris :
  forall t w,
    sum_sizes (__init__ key secret token (Some "") s3_region) t uris w
    = sum_sizes (__init__ key secret token None s3_region) t uris w.
Proof.
  induction uris as [|uri rest IH]; intros t w; [reflexivity|].
  cbn [sum_sizes].
  change (size_of (__init__ key secret token (Some "") s3_region) uri)
    with (size_of (__init__ key secret token None s3_region) uri).
  apply bind_ext. intros size w1. apply bind_ext. intros t1 w2. apply IH.
Qed.

(** C9: an empty endpoint override is no override.  [_endpoint_url] gives
    the empty string back, [_client_kwargs] then leaves [endpoint_url] at
    [None] and passes the caller's region through, and a filesystem made
    with [''] builds the keyword arguments, the clients, the resources and
    the buckets of one made with [None], and lists, sizes, tests and
    touches as it does. *)
Theorem empty_endpoint_is_no_endpoint
    (key secret token s3_region region : option string) :
  _endpoint_url (Some "") = Some ""
  /\ endpoint_url (_client_kwargs (__init__ key secret token (Some "") s3_region) region)
     = None
  /\ region_name (_client_kwargs (__init__ key secret token (Some "") s3_region) region)
     = region
  /\ _client_kwargs (__init__ key secret token (Some "") s3_region) region
     = _client_kwargs (__init__ key secret token None s3_region) region
  /\ (forall w,
        make_s3_client (__init__ key secret token (Some "") s3_region) region w
        = make_s3_client (__init__ key secret token None s3_region) region w)
  /\ (forall w,
        make_s3_resource (__init__ key secret token (Some "") s3_region) region w
        = make_s3_resource (__init__ key secret token None s3_region) region w)
  /\ (forall b w,
        get_bucket (__init__ key secret token (Some "") s3_region) b w
        = get_bucket (__init__ key secret token None s3_region) b w)
  /\ (forall path_glob w,
        ls (__init__ key secret token (Some "") s3_region) path_glob w
        = ls (__init__ key secret token None s3_region) path_glob w)
  /\ (forall path_glob w,
        du (__init__ key secret token (Some "") s3_region) path_glob w
        = du (__init__ key secret token None s3_region) path_glob w)
  /\ (forall path_glob w,
        exists_ (__init__ key secret token (Some "") s3_region) path_glob w
        = exists_ (__init__ key secret token None s3_region) path_glob w)
  /\ (forall dest w,
        touchz (__init__ key secret token (Some "") s3_region) dest w
        = touchz (__init__ key secret token None s3_region) dest w).
Proof.
  repeat split.
  intros path_glob w. unfold du.
  change (ls (__init__ key secret token (Some "") s3_region) path_glob)
    with (ls (__init__ key secret token None s3_region) path_glob).
  apply bind_ext. intros uris w1. apply sum_sizes_empty_endpoint.
Qed.

(** ** C4 *)

Lemma arg_eqb_eq a b : arg_eqb a b = true <-> a = b.
Proof.
  destruct a, b; simpl; split; intros H; try discriminate; try congruence.
  - apply Z.eqb_eq in H. congruence.
  - inversion H. apply Z.eqb_refl.
  - apply String.eqb_eq in H. congruence.
  - inversion H. apply String.eqb_refl.
Qed.

Lemma args_eqb_eq xs : forall ys, args_eqb xs ys = true <-> xs = ys.
Proof.
  induction xs as [|x xs IH]; intros [|y ys]; simpl; split; intros H;
    try discriminate; try reflexivity.
  - apply andb_true_iff in H. destruct H as (H1 & H2).
    apply arg_eqb_eq in H1. apply IH in H2. congruence.
  - inversion H; subst. apply andb_true_iff. split; [apply arg_eqb_eq|apply IH]; reflexivity.
Qed.

Lemma _is_retriable_client_error_cases ex :
  _is_retriable_client_error ex = true <->
  (exists response,
      ex = ClientError response
      /\ (Py.contains "Throttl" (response_Error_Code response) = true
          \/ Py.contains "RequestExpired" (response_Error_Code response) = true
          \/ Py.contains "Timeout" (response_Error_Code response) = true
          \/ response_Error_HTTPStatusCode response = Some 505%Z))
  \/ ex = socket_error [AInt 104; AStr "Connection reset by peer"]
  \/ ex = socket_error [AInt 110; AStr "Connection timed out"].
Proof.
  destruct ex as [response|status|args|m|m|m|m|m|m];
    try (split; [discriminate|intros [(r & E & _)|[E|E]]; discriminate]).
  - cbn [_is_retriable_client_error existsb]. rewrite orb_false_r.
    assert (S505 : status_is (response_Error_HTTPStatusCode response) 505 = true
                   <-> response_Error_HTTPStatusCode response = Some 505%Z).
    { destruct (response_Error_HTTPStatusCode response) as [s|]; simpl;
        [|split; discriminate].
      rewrite Z.eqb_eq. split; congruence. }
    split.
    + intros H. left. exists response. split; [reflexivity|].
      destruct (Py.contains "Throttl" (response_Error_Code response));
        [left; reflexivity|].
      destruct (Py.contains "RequestExpired" (response_Error_Code response));
        [right; left; reflexivity|].
      destruct (Py.contains "Timeout" (response_Error_Code response));
        [right; right; left; reflexivity|].
      simpl in H. right. right. right. apply S505. exact H.
    + intros [(r & E & H)|[E|E]]; try discriminate.
      inversion E; subst r.
      destruct H as [H|[H|[H|H]]]; try (rewrite H; rewrite ?orb_true_r; reflexivity).
      apply S505 in H. rewrite H. destruct (_ || _); reflexivity.
  - cbn [_is_retriable_client_error existsb]. rewrite orb_false_r, orb_true_iff.
    rewrite !args_eqb_eq. split.
    + intros [H|H]; subst; auto.
    + intros [(r & E & _)|[E|E]]; [discriminate| |]; inversion E; auto.
Qed.

(** the HTTP status of the answer plays no part in the classification of
    the errors botocore raises *)
Lemma _is_retriable_client_error_service_error code status :
  _is_retriable_client_error (service_error code status)
  = existsb (fun c => Py.contains c code) ["Throttl"; "RequestExpired"; "Timeout"].
Proof.
  unfold service_error. cbn [_is_retriable_client_error].
  change (response_Error_Code _) with code.
  destruct (existsb (fun c => Py.contains c code) ["Throttl"; "RequestExpired"; "Timeout"]);
    reflexivity.
Qed.

(** the classification of the spec and the code's differ by design, too: a
    client error whose code holds [Timeout] is retried although it is
    neither throttling, nor an expired signature, nor a 505, nor a
    connection error *)
Lemma request_timeout_is_retriable :
  _is_retriable_client_error (Example.client_error "RequestTimeout" 400) = true
  /\ spec_retryable (Example.client_error "RequestTimeout" 400) = false.
Proof. split; reflexivity. Qed.

(** C4 (the code departs from it): an answer of HTTP status 505 is not
    retried.  The predicate looks for the status under ['Error'], where
    botocore does not file it, so that the status of the answer plays no
    part: the error botocore raises is retriable exactly when its code
    holds [Throttl], [RequestExpired] or [Timeout].  The error of a 505
    leaves the wrapped call at once, with no sleep.  Only a response that
    had ['HTTPStatusCode'] under ['Error'] would be retried for its
    status. *)
Theorem http_505_is_not_retried :
  http_status (mkResponse (Some (mkErrorDict (Some "505") None))
                 (Some (mkResponseMetadataDict (Some 505%Z)))) = Some 505%Z
  /\ spec_retryable (service_error "505" 505) = true
  /\ _is_retriable_client_error (service_error "505" 505) = false
  /\ (forall code status,
        _is_retriable_client_error (service_error code status)
        = existsb (fun c => Py.contains c code) ["Throttl"; "RequestExpired"; "Timeout"])
  /\ Retry.call_and_maybe_retry _is_retriable_client_error
       (Retry.mkPolicy _EMR_BACKOFF _EMR_BACKOFF_MULTIPLIER _EMR_MAX_TRIES)
       (raise (service_error "505" 505) : M unit) Example.world
     = (Raise (service_error "505" 505), Example.world)
  /\ _is_retriable_client_error
       (ClientError (mkResponse (Some (mkErrorDict (Some "505") (Some 505%Z))) None))
     = true.
Proof.
  split; [reflexivity|]. split; [reflexivity|]. split; [reflexivity|].
  split; [apply _is_retriable_client_error_service_error|].
  split; [|reflexivity].
  unfold Retry.call_and_maybe_retry. apply attempt_fatal; reflexivity.
Qed.

(* ================================================================== *)
(** ** Further properties: errors that come before any request *)

Lemma ls_invalid self P w :
  Parse.parse_s3_uri (literal_prefix P) = None ->
  ls self P w = (Raise (ValueError ("Invalid S3 URI: " ++ literal_prefix P)), w).
Proof.
  intros Hp. unfold ls. rewrite base_uri_literal_prefix.
  apply bind_raise. rewrite parse_s3_uri_run, Hp. reflexivity.
Qed.

(** X1: a path that is no S3 URI makes [get_s3_key], [make_s3_key],
    [touchz], [_cat_file] and [md5sum] raise [ValueError] at once: no
    client is made, nothing is logged or requested, the world is as it
    was. *)
Theorem path_methods_refuse_an_invalid_uri self uri w etag :
  Parse.parse_s3_uri uri = None ->
  get_s3_key self uri w = (Raise (ValueError ("Invalid S3 URI: " ++ uri)), w)
  /\ make_s3_key self uri w = (Raise (ValueError ("Invalid S3 URI: " ++ uri)), w)
  /\ touchz self uri w = (Raise (ValueError ("Invalid S3 URI: " ++ uri)), w)
  /\ _cat_file self uri w = (Raise (ValueError ("Invalid S3 URI: " ++ uri)), w)
  /\ md5sum etag self uri w = (Raise (ValueError ("Invalid S3 URI: " ++ uri)), w).
Proof.
  intros Hp. pose proof (get_s3_key_invalid self uri w Hp) as G.
  split; [exact G|]. split.
  - unfold make_s3_key. apply bind_raise. rewrite parse_s3_uri_run, Hp. reflexivity.
  - split; [|split].
    + unfold touchz. apply bind_raise. exact G.
    + unfold _cat_file. apply bind_raise. exact G.
    + unfold md5sum. apply bind_raise. exact G.
Qed.

Lemma path_methods_refuse_an_invalid_uri_witness :
  get_s3_key Example.fs "/tmp/walrus" Example.world
    = (Raise (ValueError "Invalid S3 URI: /tmp/walrus"), Example.world)
  /\ touchz Example.fs "/tmp/walrus" Example.world
     = (Raise (ValueError "Invalid S3 URI: /tmp/walrus"), Example.world).
Proof.
  destruct (path_methods_refuse_an_invalid_uri Example.fs "/tmp/walrus" Example.world
              (fun _ => "") eq_refl) as (G & _ & T & _).
  split; [exact G|exact T].
Defined.

(** X2: when the text of a glob before its first wildcard is no S3 URI of
    a bucket and a key (the wildcard stands in the bucket name, say),
    [ls], [du], [exists] and [rm] raise [ValueError] at once and leave the
    world as it was; [exists] does not answer false. *)
Theorem glob_methods_refuse_an_invalid_prefix self P w :
  Parse.parse_s3_uri (literal_prefix P) = None ->
  ls self P w = (Raise (ValueError ("Invalid S3 URI: " ++ literal_prefix P)), w)
  /\ du self P w = (Raise (ValueError ("Invalid S3 URI: " ++ literal_prefix P)), w)
  /\ exists_ self P w = (Raise (ValueError ("Invalid S3 URI: " ++ literal_prefix P)), w)
  /\ rm self P w = (Raise (ValueError ("Invalid S3 URI: " ++ literal_prefix P)), w).
Proof.
  intros Hp. pose proof (ls_invalid self P w Hp) as L.
  split; [exact L|]. split; [|split].
  - unfold du. apply bind_raise. exact L.
  - apply exists_propagates. exact L.
  - unfold rm. apply bind_raise. exact L.
Qed.

Lemma glob_methods_refuse_an_invalid_prefix_witness :
  ls Example.fs "s3://wal*/data" Example.world
    = (Raise (ValueError "Invalid S3 URI: s3://wal"), Example.world)
  /\ exists_ Example.fs "s3://wal*/data" Example.world
     = (Raise (ValueError "Invalid S3 URI: s3://wal"), Example.world).
Proof.
  destruct (glob_methods_refuse_an_invalid_prefix Example.fs "s3://wal*/data"
              Example.world eq_refl) as (L & _ & E & _).
  split; [exact L|exact E].
Defined.

Lemma make_s3_client_not_installed self region w :
  boto3 w = false ->
  make_s3_client self region w
  = (Raise (ImportError "You must install boto3 to connect to S3"), w).
Proof. intros H. unfold make_s3_client, bind, gets. rewrite H. reflexivity. Qed.

Lemma make_s3_resource_not_installed self region w :
  boto3 w = false ->
  make_s3_resource self region w
  = (Raise (ImportError "You must install boto3 to connect to S3"), w).
Proof. intros H. unfold make_s3_resource, bind, gets. rewrite H. reflexivity. Qed.

Lemma ls_not_installed self P w b n :
  boto3 w = false ->
  Parse.parse_s3_uri (literal_prefix P) = Some (b, n) ->
  ls self P w = (Raise (ImportError "You must install boto3 to connect to S3"), w).
Proof.
  intros H Hp. unfold ls. rewrite base_uri_literal_prefix. parsed Hp.
  apply bind_raise. apply get_bucket_not_installed. exact H.
Qed.

(** X3: when [boto3] could not be imported, making a client, a resource or
    a bucket raises [ImportError] with the install hint, and so do
    [create_bucket], [make_s3_key] and, on a valid glob, [ls], [du],
    [exists] and [rm]: nothing is logged or requested. *)
Theorem without_boto3_import_error self w :
  boto3 w = false ->
  (forall region, make_s3_client self region w
     = (Raise (ImportError "You must install boto3 to connect to S3"), w))
  /\ (forall region, make_s3_resource self region w
     = (Raise (ImportError "You must install boto3 to connect to S3"), w))
  /\ (forall b, get_bucket self b w
     = (Raise (ImportError "You must install boto3 to connect to S3"), w))
  /\ (forall b region, create_bucket self b region w
     = (Raise (ImportError "You must install boto3 to connect to S3"), w))
  /\ (forall uri b n, Parse.parse_s3_uri uri = Some (b, n) ->
      make_s3_key self uri w
      = (Raise (ImportError "You must install boto3 to connect to S3"), w))
  /\ (forall P b n, Parse.parse_s3_uri (literal_prefix P) = Some (b, n) ->
      ls self P w = (Raise (ImportError "You must install boto3 to connect to S3"), w)
      /\ du self P w = (Raise (ImportError "You must install boto3 to connect to S3"), w)
      /\ exists_ self P w
         = (Raise (ImportError "You must install boto3 to connect to S3"), w)
      /\ rm self P w = (Raise (ImportError "You must install boto3 to connect to S3"), w)).
Proof.
  intros H. split; [|split; [|split; [|split; [|split]]]].
  - intros region. apply make_s3_client_not_installed. exact H.
  - intros region. apply make_s3_resource_not_installed. exact H.
  - intros b. apply get_bucket_not_installed. exact H.
  - intros b region. unfold create_bucket. apply bind_raise.
    apply make_s3_client_not_installed. exact H.
  - intros uri b n Hp. unfold make_s3_key. parsed Hp.
    apply bind_raise. apply get_bucket_not_installed. exact H.
  - intros P b n Hp. pose proof (ls_not_installed self P w b n H Hp) as L.
    split; [exact L|]. split; [|split].
    + unfold du. apply bind_raise. exact L.
    + apply exists_propagates. exact L.
    + unfold rm. apply bind_raise. exact L.
Qed.

Lemma without_boto3_import_error_witness :
  get_bucket Example.fs "walrus" Example2.without_boto3
    = (Raise (ImportError "You must install boto3 to connect to S3"),
       Example2.without_boto3)
  /\ ls Example.fs "s3://walrus/data/*" Example2.without_boto3
     = (Raise (ImportError "You must install boto3 to connect to S3"),
        Example2.without_boto3).
Proof.
  destruct (without_boto3_import_error Example.fs Example2.without_boto3 eq_refl)
    as (_ & _ & G & _ & _ & L).
  split; [apply G|].
  apply (L "s3://walrus/data/*" "walrus" "data/" eq_refl).
Defined.

(** *** What [get_bucket] leaves alone, and what it lets through *)

Lemma get_bucket_same_service self b w r w' :
  get_bucket self b w = (r, w') -> same_service w w'.
Proof.
  intros H. destruct (boto3 w) eqn:H3.
  - destruct (bucket_location w b) as [c|e] eqn:Hloc.
    + rewrite (get_bucket_located self b w c H3 Hloc) in H.
      inversion H; subst. apply after_get_bucket_same_service.
    + destruct e;
        try (destruct (get_bucket_other_error self b w _ H3 Hloc) as (w1 & E & S);
             [intros r0; discriminate | rewrite E in H; inversion H; subst; exact S]).
      destruct (get_bucket_client_error self b w _ H3 Hloc) as (w1 & E & S).
      rewrite E in H. inversion H; subst. exact S.
  - rewrite (get_bucket_not_installed self b w H3) in H.
    inversion H; subst. apply same_service_refl.
Qed.

(** X4: a failure of the location lookup that is no client error (a
    connection error, an error of the old library) comes out of
    [get_bucket] as it was raised. *)
Theorem get_bucket_lets_other_errors_through self b w e :
  boto3 w = true ->
  bucket_location w b = LocationFails e ->
  (forall response, e <> ClientError response) ->
  fst (get_bucket self b w) = Raise e.
Proof.
  intros H3 Hloc Hne.
  destruct (get_bucket_other_error self b w e H3 Hloc Hne) as (w' & E & _).
  rewrite E. reflexivity.
Qed.

Lemma get_bucket_lets_other_errors_through_witness :
  fst (get_bucket Example.fs "broken" Example.world) = Raise (S3ResponseError 500).
Proof.
  apply (get_bucket_lets_other_errors_through Example.fs "broken" Example.world).
  - reflexivity.
  - reflexivity.
  - intros response. discriminate.
Defined.

(** X5: when [boto] could not be imported, any failure of [get_bucket]
    inside [get_s3_key] is lost: evaluating the [except] clause fails on
    [boto.exception], and [get_s3_key], [touchz], [_cat_file] and [md5sum]
    raise [AttributeError] in place of the error [get_bucket] raised. *)
Theorem without_boto_get_s3_key_hides_the_error self uri w b name e etag :
  Parse.parse_s3_uri uri = Some (b, name) ->
  boto w = false ->
  fst (get_bucket self b w) = Raise e ->
  fst (get_s3_key self uri w)
    = Raise (AttributeError "'NoneType' object has no attribute 'exception'")
  /\ fst (touchz self uri w)
     = Raise (AttributeError "'NoneType' object has no attribute 'exception'")
  /\ fst (_cat_file self uri w)
     = Raise (AttributeError "'NoneType' object has no attribute 'exception'")
  /\ fst (md5sum etag self uri w)
     = Raise (AttributeError "'NoneType' object has no attribute 'exception'").
Proof.
  intros Hp Hb Hg.
  destruct (get_bucket self b w) as [r w'] eqn:G. simpl in Hg. subst r.
  pose proof (get_s3_key_bucket_error self uri w b name e w' Hp G) as K.
  destruct (get_bucket_same_service _ _ _ _ _ G) as (B & _ & _).
  rewrite B, Hb in K.
  split; [rewrite K; reflexivity|]. split; [|split].
  - unfold touchz. rewrite (bind_raise _ _ _ _ _ K). reflexivity.
  - unfold _cat_file. rewrite (bind_raise _ _ _ _ _ K). reflexivity.
  - unfold md5sum. rewrite (bind_raise _ _ _ _ _ K). reflexivity.
Qed.

Lemma without_boto_get_s3_key_hides_the_error_witness :
  fst (get_bucket Example.fs "broken" Example2.without_boto) = Raise (S3ResponseError 500)
  /\ fst (get_s3_key Example.fs "s3://broken/data" Example2.without_boto)
     = Raise (AttributeError "'NoneType' object has no attribute 'exception'").
Proof.
  split; [vm_compute; reflexivity|].
  apply (without_boto_get_s3_key_hides_the_error Example.fs "s3://broken/data"
           Example2.without_boto "broken" "data" (S3ResponseError 500) (fun _ => "")).
  - reflexivity.
  - reflexivity.
  - vm_compute. reflexivity.
Defined.

(** *** Where [get_bucket] goes without an endpoint override *)

Lemma _client_kwargs_plain self region :
  Py.truthy (_s3_endpoint_url self) = false ->
  _client_kwargs self region = plain_kwargs self region.
Proof. intros H. unfold _client_kwargs. rewrite H. reflexivity. Qed.

Lemma trace_step w : trace (step w) = trace w.
Proof. unfold step, Boto.others_act. destruct (schedule w); reflexivity. Qed.

Lemma region_for_cases c :
  region_for c
  = if Py.truthy c then match c with Some r => r | None => "" end
    else Parse._S3_REGION_WITH_NO_LOCATION_CONSTRAINT.
Proof. destruct c as [[|x r]|]; reflexivity. Qed.

(** X6: without an endpoint override, [get_bucket] asks for the bucket's
    location through a client made with the credentials and neither
    endpoint nor region, and returns the bucket of a resource made with
    the same credentials for the region found: the location constraint
    itself, or the region without location constraint when the service
    reports [None] or the empty string. *)
Theorem get_bucket_goes_to_the_region_of_the_bucket self b w c :
  Py.truthy (_s3_endpoint_url self) = false ->
  boto3 w = true ->
  bucket_location w b = Located c ->
  fst (get_bucket self b w)
    = Ok (bucket_through (plain_kwargs self (Some (region_for c))) b)
  /\ trace (snd (get_bucket self b w))
     = (trace w ++
        [ log_debug "creating S3 client (default)";
          boto3_client (plain_kwargs self None);
          get_bucket_location (plain_kwargs self None) b;
          log_debug ("creating S3 resource (" ++ region_for c ++ ")");
          boto3_resource (plain_kwargs self (Some (region_for c))) ])%list
  /\ region_for c
     = if Py.truthy c then match c with Some r => r | None => "" end
       else Parse._S3_REGION_WITH_NO_LOCATION_CONSTRAINT.
Proof.
  intros He H3 Hloc. rewrite (get_bucket_located self b w c H3 Hloc).
  unfold after_get_bucket, asked_location, resource_events, client_events.
  rewrite !(_client_kwargs_plain self _ He).
  split; [reflexivity|]. split; [|apply region_for_cases].
  assert (D : describe (plain_kwargs self (Some (region_for c))) = region_for c).
  { unfold describe, plain_kwargs. simpl.
    destruct c as [[|x r]|]; reflexivity. }
  rewrite D. cbn [snd]. unfold logged at 1 2. cbn [trace with_trace].
  rewrite trace_step. unfold logged. cbn [trace with_trace].
  rewrite <- !app_assoc. reflexivity.
Qed.

Lemma get_bucket_goes_to_the_region_of_the_bucket_witness :
  fst (get_bucket Example2.fs_keys "frankfurt" Example2.europe)
    = Ok (bucket_through
            (mkKwargs (Some "AKIDEXAMPLE") (Some "wJalrEXAMPLEKEY") None None
               (Some "eu-central-1")) "frankfurt")
  /\ fst (get_bucket Example2.fs_keys "walrus" Example2.europe)
    = Ok (bucket_through
            (mkKwargs (Some "AKIDEXAMPLE") (Some "wJalrEXAMPLEKEY") None None
               (Some Parse._S3_REGION_WITH_NO_LOCATION_CONSTRAINT)) "walrus").
Proof.
  split.
  - apply (proj1 (get_bucket_goes_to_the_region_of_the_bucket Example2.fs_keys
                    "frankfurt" Example2.europe (Some "eu-central-1")
                    eq_refl eq_refl eq_refl)).
  - apply (proj1 (get_bucket_goes_to_the_region_of_the_bucket Example2.fs_keys
                    "walrus" Example2.europe None eq_refl eq_refl eq_refl)).
Defined.

(** *** How long a wrapped client keeps trying *)

Lemma attempt_failed_lookups kw b ex :
  _is_retriable_client_error ex = true ->
  forall retries backoff w,
    bucket_location w b = LocationFails ex ->
    exists w',
      Retry.attempt _is_retriable_client_error _EMR_BACKOFF_MULTIPLIER retries backoff
        (Boto.others_act ;; emit (get_bucket_location kw b) ;;
         (fun w => match bucket_location w b with
                   | Located c => (Ok c, w)
                   | LocationFails e => (Raise e, w)
                   end)) w
      = (Raise ex, w')
      /\ trace w' = (trace w ++ failed_lookups kw b retries backoff)%list.
Proof.
  intros R. induction retries as [|n IH]; intros backoff w Hloc.
  - eexists. cbn [Retry.attempt]. rewrite raw_location_run, Hloc. split; [reflexivity|].
    cbn [logged trace with_trace]. rewrite trace_step. reflexivity.
  - cbn [Retry.attempt]. rewrite raw_location_run, Hloc, R.
    destruct (IH (Retry.times backoff _EMR_BACKOFF_MULTIPLIER)
                 (logged [time_sleep backoff] (logged [get_bucket_location kw b] (step w))))
      as (w' & E & T).
    + destruct (step_same_service w) as (_ & _ & L). cbn [logged bucket_location with_trace].
      rewrite L. exact Hloc.
    + exists w'. split; [exact E|]. rewrite T.
      cbn [logged trace with_trace failed_lookups]. rewrite trace_step, <- !app_assoc.
      reflexivity.
Qed.

(** X7: a location lookup that keeps failing with a retriable error is
    tried [_EMR_MAX_TRIES] = 20 times through the wrapped client, which
    sleeps between the tries for 20 seconds, then 1.5 times as long each
    time; the 19 sleeps add up to about a day (between 24 and 25 hours),
    after which the error is raised as it was. *)
Theorem throttled_lookup_is_tried_for_a_day kw b w ex :
  bucket_location w b = LocationFails ex ->
  _is_retriable_client_error ex = true ->
  fst (Boto.client_get_bucket_location (_wrap_aws_client (mkClient kw None)) b w)
    = Raise ex
  /\ trace (snd (Boto.client_get_bucket_location
                   (_wrap_aws_client (mkClient kw None)) b w))
     = (trace w ++ failed_lookups kw b 19 _EMR_BACKOFF)%list
  /\ lookups (failed_lookups kw b 19 _EMR_BACKOFF) = 20%nat
  /\ slept (failed_lookups kw b 19 _EMR_BACKOFF)
     = map (fun i => (20 * 3 ^ Z.of_nat i, 2 ^ Z.of_nat i)%Z) (seq 0 19)
  /\ (24 * 3600 * snd (total_seconds (slept (failed_lookups kw b 19 _EMR_BACKOFF)))
      <= fst (total_seconds (slept (failed_lookups kw b 19 _EMR_BACKOFF)))
      < 25 * 3600 * snd (total_seconds (slept (failed_lookups kw b 19 _EMR_BACKOFF))))%Z.
Proof.
  intros Hloc R.
  destruct (attempt_failed_lookups kw b ex R 19 _EMR_BACKOFF w Hloc) as (w' & E & T).
  unfold Boto.client_get_bucket_location, Boto.request, Retry.call_and_maybe_retry.
  cbn [client_retry _wrap_aws_client client_kwargs Retry.multiplier Retry.max_tries
       Retry.backoff Nat.pred _EMR_MAX_TRIES].
  rewrite E. split; [reflexivity|]. split; [exact T|].
  split; [reflexivity|]. split; [reflexivity|].
  vm_compute. split; [intros H; discriminate H|reflexivity].
Qed.

Lemma throttled_lookup_is_tried_for_a_day_witness :
  fst (Boto.client_get_bucket_location
         (_wrap_aws_client (mkClient (mkKwargs None None None None None) None))
         "busy" Example2.throttling)
  = Raise (Example.client_error "Throttling" 400).
Proof.
  apply (proj1 (throttled_lookup_is_tried_for_a_day (mkKwargs None None None None None)
                  "busy" Example2.throttling (Example.client_error "Throttling" 400)
                  eq_refl eq_refl)).
Defined.

(* ================================================================== *)
(** ** Further properties: what [ls] lists for a plain path *)

Lemma prefix_strip_prefix p : forall s,
  prefix p s = match Py.strip_prefix p s with Some _ => true | None => false end.
Proof.
  induction p as [|a p IH]; intros s; [destruct s; reflexivity|].
  destruct s as [|x s]; [reflexivity|]. cbn [prefix Py.strip_prefix].
  destruct (ascii_dec a x) as [->|N].
  - rewrite Ascii.eqb_refl. apply IH.
  - apply Ascii.eqb_neq in N. rewrite N. reflexivity.
Qed.

Lemma strip_prefix_app p : forall r, Py.strip_prefix p (p ++ r) = Some r.
Proof.
  induction p as [|a p IH]; intros r; [reflexivity|].
  cbn [append Py.strip_prefix]. rewrite Ascii.eqb_refl. apply IH.
Qed.

Lemma prefix_iff p s : prefix p s = true <-> exists r, s = p ++ r.
Proof.
  rewrite prefix_strip_prefix. split.
  - destruct (Py.strip_prefix p s) as [r|] eqn:E; [|discriminate].
    intros _. exists r. apply strip_prefix_some. exact E.
  - intros (r & ->). rewrite strip_prefix_app. reflexivity.
Qed.

Lemma append_inv_head (a x y : string) : a ++ x = a ++ y -> x = y.
Proof.
  induction a as [|c a IH]; intros H; [exact H|].
  cbn [append] in H. inversion H. auto.
Qed.

Lemma append_longer (P r : string) : P ++ r = P -> r = "".
Proof.
  intros H. apply (append_inv_head P). rewrite append_empty_r. exact H.
Qed.

Lemma tmatch_star u : Fnmatch.tmatch [Fnmatch.TStar] u = true.
Proof.
  induction u as [|c u IH]; [reflexivity|].
  cbn [Fnmatch.tmatch] in *. cbn [orb]. exact IH.
Qed.

Lemma fnmatchcase_literal_eqb u P :
  literal P = true -> Fnmatch.fnmatchcase u P = String.eqb u P.
Proof.
  intros L. unfold Fnmatch.fnmatchcase.
  rewrite <- (append_empty_r P) at 1. rewrite (translate_literal P "" L), tmatch_literal.
  destruct (Py.strip_prefix P u) as [r|] eqn:E.
  - apply strip_prefix_some in E. subst u. destruct r as [|c r].
    + rewrite append_empty_r, String.eqb_refl. reflexivity.
    + symmetry. apply String.eqb_neq. intros H. apply append_longer in H. discriminate.
  - symmetry. apply String.eqb_neq. intros ->.
    rewrite <- (append_empty_r P) in E at 2. rewrite strip_prefix_app in E. discriminate.
Qed.

Lemma fnmatchcase_literal_star_prefix u lit :
  literal lit = true -> Fnmatch.fnmatchcase u (lit ++ "*") = prefix lit u.
Proof.
  intros L. unfold Fnmatch.fnmatchcase.
  rewrite (translate_literal lit "*" L), tmatch_literal, prefix_strip_prefix.
  destruct (Py.strip_prefix lit u); [apply tmatch_star|reflexivity].
Qed.

Lemma plain_match_fnmatchcase P u :
  literal P = true ->
  Fnmatch.fnmatchcase u P || Fnmatch.fnmatchcase u (directory_pattern P)
  = plain_match P u.
Proof.
  intros L. unfold plain_match.
  rewrite (fnmatchcase_literal_eqb u P L), directory_pattern_as_directory.
  rewrite (fnmatchcase_literal_star_prefix u _ (literal_as_directory P L)). reflexivity.
Qed.

Lemma literal_prefix_literal P : literal P = true -> literal_prefix P = P.
Proof.
  induction P as [|c P IH]; intros L; [reflexivity|].
  cbn [literal] in L. apply andb_true_iff in L. destruct L as (Lc & L).
  apply negb_true_iff in Lc. apply orb_false_iff in Lc. destruct Lc as (Lc & _).
  cbn [literal_prefix]. rewrite Lc, (IH L). reflexivity.
Qed.

(** a URI that parses is its scheme, [://], its bucket, [/] and its key *)
Lemma parse_s3_uri_inv uri b n :
  Parse.parse_s3_uri uri = Some (b, n) ->
  uri = Parse.urlparse_scheme uri ++ "://" ++ b ++ "/" ++ n.
Proof.
  unfold Parse.parse_s3_uri, Parse.urlparse_scheme. intros H.
  destruct (Py.split_once "://" uri) as [[sch rest]|] eqn:E1; [|discriminate].
  destruct (existsb (String.eqb sch) Parse.S3_SCHEMES); [|discriminate].
  destruct (Py.split_once "/" rest) as [[bk ky]|] eqn:E2; [|discriminate].
  destruct bk as [|c0 bk]; [discriminate|]. inversion H; subst b n; clear H.
  apply split_once_some in E1, E2. rewrite E1, E2. reflexivity.
Qed.

Lemma as_directory_starts P : exists t, as_directory P = P ++ t.
Proof.
  unfold as_directory. destruct (Py.endswith P "/").
  - exists "". symmetry. apply append_empty_r.
  - exists "/". reflexivity.
Qed.

(** what the plain path designates has a name that starts with its key *)
Lemma plain_match_in_scan P b n o :
  Parse.parse_s3_uri P = Some (b, n) ->
  plain_match P (uri_of (Parse.urlparse_scheme P) b o) = true ->
  prefix n (obj_name o) = true.
Proof.
  intros Hp H. apply prefix_iff.
  assert (S : exists r, uri_of (Parse.urlparse_scheme P) b o = P ++ r).
  { unfold plain_match in H. apply orb_true_iff in H. destruct H as [H|H].
    - apply String.eqb_eq in H. exists "". rewrite append_empty_r. exact H.
    - apply prefix_iff in H. destruct H as (r & H).
      destruct (as_directory_starts P) as (t & T).
      exists (t ++ r). rewrite H, T, append_assoc. reflexivity. }
  destruct S as (r & S). exists r.
  pose proof (parse_s3_uri_inv P b n Hp) as I.
  unfold uri_of in S. rewrite I in S at 2.
  set (sch := Parse.urlparse_scheme P) in *.
  replace ((sch ++ "://" ++ b ++ "/" ++ n) ++ r)
    with (sch ++ "://" ++ b ++ "/" ++ n ++ r) in S.
  2:{ rewrite !append_assoc. cbn [append]. rewrite ?append_assoc. reflexivity. }
  apply append_inv_head in S. cbn [append] in S. inversion S as [S'].
  apply append_inv_head in S'. cbn [append] in S'. inversion S'. reflexivity.
Qed.

Lemma filter_map_swap {A B} (f : B -> bool) (g : A -> B) l :
  filter f (map g l) = map g (filter (fun a => f (g a)) l).
Proof.
  induction l as [|a l IH]; [reflexivity|].
  cbn [map filter]. destruct (f (g a)); cbn [map]; rewrite IH; reflexivity.
Qed.

Lemma filter_filter_and {A} (f g : A -> bool) l :
  filter f (filter g l) = filter (fun a => g a && f a) l.
Proof.
  induction l as [|a l IH]; [reflexivity|].
  cbn [filter]. destruct (g a); cbn [filter andb]; [destruct (f a)|]; rewrite IH; reflexivity.
Qed.

Lemma listing_plain P b n objs :
  literal P = true ->
  Parse.parse_s3_uri P = Some (b, n) ->
  listing P b n objs = map (uri_of (Parse.urlparse_scheme P) b) (designated P b objs).
Proof.
  intros L Hp. unfold listing, designated, Store.scan.
  rewrite filter_map_swap, filter_filter_and. f_equal.
  apply filter_ext. intros o.
  rewrite (plain_match_fnmatchcase P _ L).
  destruct (String.eqb (obj_bucket o) b); [|reflexivity]. cbn [andb].
  destruct (plain_match P (uri_of (Parse.urlparse_scheme P) b o)) eqn:M.
  - rewrite (plain_match_in_scan P b n o Hp M). reflexivity.
  - apply andb_false_r.
Qed.

Lemma ls_plain self P w b n c :
  literal P = true ->
  Parse.parse_s3_uri P = Some (b, n) ->
  boto3 w = true ->
  bucket_location w b = Located c ->
  quiet w ->
  ls self P w
  = (Ok (map (uri_of (Parse.urlparse_scheme P) b) (designated P b (objects w))),
     after_ls self b n c w).
Proof.
  intros L Hp H3 Hloc Q.
  assert (Hp' : Parse.parse_s3_uri (literal_prefix P) = Some (b, n))
    by (rewrite (literal_prefix_literal P L); exact Hp).
  rewrite (ls_located self P w b n c Hp' H3 Hloc).
  destruct (quiet_after_get_bucket self b c w Q) as (Q1 & O1).
  rewrite (quiet_step _ Q1), O1, (listing_plain P b n _ L Hp). reflexivity.
Qed.

(** X8: for a path [P] without special characters, in a quiet world where
    the bucket resolves, [ls(P)] yields exactly the URIs of the objects of
    the bucket that are [P] itself or start with [P + '/'] (with [P] when
    [P] ends in ['/']), each once per stored object, in the order of the
    store. *)
Theorem ls_of_a_plain_path_is_the_path_and_its_directory self P w b n c :
  literal P = true ->
  Parse.parse_s3_uri P = Some (b, n) ->
  boto3 w = true ->
  bucket_location w b = Located c ->
  quiet w ->
  fst (ls self P w)
  = Ok (map (uri_of (Parse.urlparse_scheme P) b)
          (filter (fun o =>
                     String.eqb (obj_bucket o) b
                     && (String.eqb (uri_of (Parse.urlparse_scheme P) b o) P
                         || prefix (as_directory P) (uri_of (Parse.urlparse_scheme P) b o)))
                  (objects w))).
Proof.
  intros L Hp H3 Hloc Q. rewrite (ls_plain self P w b n c L Hp H3 Hloc Q). reflexivity.
Qed.

Lemma ls_of_a_plain_path_is_the_path_and_its_directory_witness :
  fst (ls Example.fs "s3://walrus/data" Example.world)
  = Ok ["s3://walrus/data/foo"; "s3://walrus/data/bar"; "s3://walrus/data/qux"].
Proof.
  apply (ls_of_a_plain_path_is_the_path_and_its_directory Example.fs "s3://walrus/data"
           Example.world "walrus" "data" None); reflexivity.
Defined.

Lemma nonempty_map_filter {A B} (g : A -> B) (f : A -> bool) l :
  negb (match map g (filter f l) with [] => true | _ => false end) = existsb f l.
Proof.
  induction l as [|a l IH]; [reflexivity|].
  cbn [filter existsb]. destruct (f a); [reflexivity|exact IH].
Qed.

(** X9: for a path [P] without special characters, in a quiet world where
    the bucket resolves, [exists(P)] is true exactly when the bucket
    holds an object that is [P] itself or starts with [P + '/'] (with [P]
    when [P] ends in ['/']). *)
Theorem exists_of_a_plain_path self P w b n c :
  literal P = true ->
  Parse.parse_s3_uri P = Some (b, n) ->
  boto3 w = true ->
  bucket_location w b = Located c ->
  quiet w ->
  fst (exists_ self P w)
  = Ok (existsb (fun o =>
                   String.eqb (obj_bucket o) b
                   && (String.eqb (uri_of (Parse.urlparse_scheme P) b o) P
                       || prefix (as_directory P) (uri_of (Parse.urlparse_scheme P) b o)))
                (objects w)).
Proof.
  intros L Hp H3 Hloc Q.
  rewrite (exists_true_iff_ls_yields self P w _ _ (ls_plain self P w b n c L Hp H3 Hloc Q)).
  cbn [fst]. unfold designated, plain_match. rewrite nonempty_map_filter. reflexivity.
Qed.

Lemma exists_of_a_plain_path_witness :
  fst (exists_ Example.fs "s3://walrus/data" Example.world) = Ok true
  /\ fst (exists_ Example.fs "s3://walrus/dat" Example.world) = Ok false.
Proof.
  split.
  - apply (exists_of_a_plain_path Example.fs "s3://walrus/data" Example.world
             "walrus" "data" None); reflexivity.
  - apply (exists_of_a_plain_path Example.fs "s3://walrus/dat" Example.world
             "walrus" "dat" None); reflexivity.
Defined.

(** *** With and without a trailing slash *)

Lemma substring_all s : substring 0 (String.length s) s = s.
Proof. induction s as [|c s IH]; [reflexivity|]. cbn. rewrite IH. reflexivity. Qed.

Lemma substring_skip a : forall s,
  substring (String.length a) (String.length s) (a ++ s) = s.
Proof.
  induction a as [|c a IH]; intros s; [apply substring_all|].
  cbn [String.length append substring]. apply IH.
Qed.

Lemma endswith_app a s : Py.endswith (a ++ s) s = true.
Proof.
  unfold Py.endswith. rewrite append_length.
  assert (L : Nat.leb (String.length s) (String.length a + String.length s) = true)
    by (apply Nat.leb_le; lia).
  rewrite L.
  replace (String.length a + String.length s - String.length s)%nat
    with (String.length a) by lia.
  rewrite substring_skip. apply String.eqb_refl.
Qed.

Lemma parse_s3_uri_app uri b n t :
  Parse.parse_s3_uri uri = Some (b, n) ->
  Parse.parse_s3_uri (uri ++ t) = Some (b, n ++ t)
  /\ Parse.urlparse_scheme (uri ++ t) = Parse.urlparse_scheme uri.
Proof.
  unfold Parse.parse_s3_uri, Parse.urlparse_scheme. intros H.
  destruct (Py.split_once "://" uri) as [[sch rest]|] eqn:E1; [|discriminate].
  rewrite (split_once_app _ t _ _ _ E1).
  destruct (existsb (String.eqb sch) Parse.S3_SCHEMES); [|discriminate].
  destruct (Py.split_once "/" rest) as [[bk ky]|] eqn:E2; [|discriminate].
  rewrite (split_once_app _ t _ _ _ E2).
  destruct bk as [|c0 bk]; [discriminate|]. inversion H; subst. split; reflexivity.
Qed.

Lemma prefix_refl s : prefix s s = true.
Proof. apply prefix_iff. exists "". symmetry. apply append_empty_r. Qed.

Lemma prefix_longer P c t : prefix (P ++ String c t) P = false.
Proof.
  destruct (prefix (P ++ String c t) P) eqn:E; [|reflexivity].
  apply prefix_iff in E. destruct E as (r & E).
  rewrite append_assoc in E. symmetry in E. apply append_longer in E. discriminate.
Qed.

(** X10: for a path [P] without special characters that does not end in
    ['/'], in a quiet world where the bucket resolves, [ls(P + '/')]
    yields what [ls(P)] yields except [P] itself: both list every key
    under the directory. *)
Theorem ls_with_a_trailing_slash self P w b n c uris :
  literal P = true ->
  Py.endswith P "/" = false ->
  Parse.parse_s3_uri P = Some (b, n) ->
  boto3 w = true ->
  bucket_location w b = Located c ->
  quiet w ->
  fst (ls self P w) = Ok uris ->
  fst (ls self (P ++ "/") w) = Ok (filter (fun u => negb (String.eqb u P)) uris).
Proof.
  intros L E Hp H3 Hloc Q U.
  rewrite (ls_plain self P w b n c L Hp H3 Hloc Q) in U. cbn [fst] in U.
  inversion U; subst uris; clear U.
  destruct (parse_s3_uri_app P b n "/" Hp) as (Hp' & Hs).
  assert (L' : literal (P ++ "/") = true) by (rewrite literal_app, L; reflexivity).
  rewrite (ls_plain self (P ++ "/") w b (n ++ "/") c L' Hp' H3 Hloc Q). cbn [fst].
  rewrite Hs, filter_map_swap. unfold designated. rewrite filter_filter_and, Hs.
  f_equal. f_equal. apply filter_ext. intros o.
  destruct (String.eqb (obj_bucket o) b); [|reflexivity]. cbn [andb].
  unfold plain_match, as_directory. rewrite E, (endswith_app P "/").
  set (u := uri_of (Parse.urlparse_scheme P) b o).
  destruct (String.eqb u P) eqn:EP.
  - apply String.eqb_eq in EP. rewrite EP, prefix_longer.
    cbn [orb andb negb]. rewrite orb_false_r. apply String.eqb_neq. intros H.
    symmetry in H. apply append_longer in H. discriminate.
  - cbn [orb negb]. rewrite andb_true_r.
    destruct (prefix (P ++ "/") u) eqn:EX; [apply orb_true_r|].
    rewrite orb_false_r. apply String.eqb_neq. intros ->.
    rewrite prefix_refl in EX. discriminate.
Qed.

Lemma ls_with_a_trailing_slash_witness :
  fst (ls Example.fs "s3://walrus/data/" Example.world)
  = Ok (filter (fun u => negb (String.eqb u "s3://walrus/data"))
          ["s3://walrus/data/foo"; "s3://walrus/data/bar"; "s3://walrus/data/qux"]).
Proof.
  apply (ls_with_a_trailing_slash Example.fs "s3://walrus/data" Example.world
           "walrus" "data" None); reflexivity.
Defined.

(* ================================================================== *)
(** ** Further properties: the methods that need a key *)

(** X11: for a URI of a bucket that resolves, [get_s3_key], [touchz],
    [_cat_file] and [md5sum] raise [AttributeError] on [bucket.get_key]
    and [make_s3_key] raises it on [bucket.new_key]: the bucket is
    boto3's.  Each leaves the world as [get_bucket] leaves it: nothing is
    asked of the store about the key, and nothing is written. *)
Theorem path_methods_fail_on_the_bucket self uri w b name c etag :
  Parse.parse_s3_uri uri = Some (b, name) ->
  boto3 w = true ->
  bucket_location w b = Located c ->
  snd (get_bucket self b w) = after_get_bucket self b c w
  /\ get_s3_key self uri w
     = (Raise (AttributeError "'s3.Bucket' object has no attribute 'get_key'"),
        after_get_bucket self b c w)
  /\ touchz self uri w
     = (Raise (AttributeError "'s3.Bucket' object has no attribute 'get_key'"),
        after_get_bucket self b c w)
  /\ _cat_file self uri w
     = (Raise (AttributeError "'s3.Bucket' object has no attribute 'get_key'"),
        after_get_bucket self b c w)
  /\ md5sum etag self uri w
     = (Raise (AttributeError "'s3.Bucket' object has no attribute 'get_key'"),
        after_get_bucket self b c w)
  /\ make_s3_key self uri w
     = (Raise (AttributeError "'s3.Bucket' object has no attribute 'new_key'"),
     after_get_bucket self b c w).
Proof.
  intros Hp H3 Hloc.
  pose proof (get_s3_key_located self uri w b name c Hp H3 Hloc) as G.
  split; [rewrite (get_bucket_located self b w c H3 Hloc); reflexivity|].
  split; [exact G|].
  split; [unfold touchz; apply bind_raise; exact G|].
  split; [unfold _cat_file; apply bind_raise; exact G|].
  split; [unfold md5sum; apply bind_raise; exact G|].
  apply (make_s3_key_located self uri w b name c Hp H3 Hloc).
Qed.

Lemma path_methods_fail_on_the_bucket_witness :
  snd (get_bucket Example.fs "walrus" Example.world)
  = after_get_bucket Example.fs "walrus" None Example.world
  /\ get_s3_key Example.fs "s3://walrus/other" Example.world
     = (Raise (AttributeError "'s3.Bucket' object has no attribute 'get_key'"),
        after_get_bucket Example.fs "walrus" None Example.world)
  /\ touchz Example.fs "s3://walrus/other" Example.world
     = (Raise (AttributeError "'s3.Bucket' object has no attribute 'get_key'"),
        after_get_bucket Example.fs "walrus" None Example.world)
  /\ _cat_file Example.fs "s3://walrus/other" Example.world
     = (Raise (AttributeError "'s3.Bucket' object has no attribute 'get_key'"),
        after_get_bucket Example.fs "walrus" None Example.world)
  /\ md5sum (fun k => match k with end) Example.fs "s3://walrus/other" Example.world
     = (Raise (AttributeError "'s3.Bucket' object has no attribute 'get_key'"),
        after_get_bucket Example.fs "walrus" None Example.world)
  /\ make_s3_key Example.fs "s3://walrus/other" Example.world
     = (Raise (AttributeError "'s3.Bucket' object has no attribute 'new_key'"),
        after_get_bucket Example.fs "walrus" None Example.world).
Proof.
  apply (path_methods_fail_on_the_bucket Example.fs "s3://walrus/other" Example.world
           "walrus" "other" None); reflexivity.
Defined.

Lemma rm_located self P w b n c :
  Parse.parse_s3_uri (literal_prefix P) = Some (b, n) ->
  boto3 w = true ->
  bucket_location w b = Located c ->
  rm self P w
  = match listing P b n (objects (step (after_get_bucket self b c w))) with
    | [] => (Ok tt, after_ls self b n c w)
    | _ :: _ =>
        (Raise (AttributeError "'s3.Bucket' object has no attribute 'get_key'"),
         after_get_bucket self b c (after_ls self b n c w))
    end.
Proof.
  intros Hp H3 Hloc. unfold rm.
  rewrite (bind_ok _ _ _ _ _ (ls_located self P w b n c Hp H3 Hloc)).
  rewrite listing_matched.
  destruct (matched P b n (objects (step (after_get_bucket self b c w)))) as [|o rest];
    [reflexivity|].
  destruct (after_ls_same_service self b n c w) as (_ & S3 & Sl).
  cbn [map rm_loop]. apply bind_raise.
  apply (get_s3_key_listed self P b n c _ o Hp).
  - rewrite S3. exact H3.
  - rewrite Sl. exact Hloc.
Qed.

(** X14: for a glob whose bucket resolves, [du] and [rm] come to an end
    with the listing: when [ls] yields nothing [du] returns 0 and [rm]
    returns; when it yields a URI, both raise [AttributeError] on
    [bucket.get_key] at the first one, and [rm] has deleted nothing: with
    no other user of the store, the objects are the ones they were. *)
Theorem du_and_rm_fail_at_the_first_listed_key self P w b n c :
  Parse.parse_s3_uri (literal_prefix P) = Some (b, n) ->
  boto3 w = true ->
  bucket_location w b = Located c ->
  fst (ls self P w) = Ok (listing P b n (objects (step (after_get_bucket self b c w))))
  /\ fst (du self P w)
     = match listing P b n (objects (step (after_get_bucket self b c w))) with
       | [] => Ok 0%Z
       | _ :: _ => Raise (AttributeError "'s3.Bucket' object has no attribute 'get_key'")
       end
  /\ fst (rm self P w)
     = match listing P b n (objects (step (after_get_bucket self b c w))) with
       | [] => Ok tt
       | _ :: _ => Raise (AttributeError "'s3.Bucket' object has no attribute 'get_key'")
       end
  /\ (quiet w ->
      objects (snd (rm self P w)) = objects w
      /\ objects (snd (du self P w)) = objects w).
Proof.
  intros Hp H3 Hloc.
  rewrite (ls_located self P w b n c Hp H3 Hloc).
  rewrite (du_located self P w b n c Hp H3 Hloc).
  rewrite (rm_located self P w b n c Hp H3 Hloc).
  split; [reflexivity|].
  split; [destruct (listing _ _ _ _); reflexivity|].
  split; [destruct (listing _ _ _ _); reflexivity|].
  intros Q.
  destruct (quiet_after_get_bucket self b c w Q) as (Q1 & O1).
  assert (Ql : quiet (after_ls self b n c w) /\ objects (after_ls self b n c w) = objects w).
  { unfold after_ls. rewrite (quiet_step _ Q1). split; [exact Q1|exact O1]. }
  destruct Ql as (Ql & Ol).
  destruct (quiet_after_get_bucket self b c _ Ql) as (_ & O2).
  destruct (listing _ _ _ _); cbn [snd]; split; congruence.
Qed.

Lemma du_and_rm_fail_at_the_first_listed_key_witness :
  (fst (ls Example.fs "s3://walrus/data/*" Example.world)
   = Ok (listing "s3://walrus/data/*" "walrus" "data/"
           (objects (step (after_get_bucket Example.fs "walrus" None Example.world))))
   /\ fst (du Example.fs "s3://walrus/data/*" Example.world)
      = Raise (AttributeError "'s3.Bucket' object has no attribute 'get_key'")
   /\ fst (rm Example.fs "s3://walrus/data/*" Example.world)
      = Raise (AttributeError "'s3.Bucket' object has no attribute 'get_key'")
   /\ (quiet Example.world ->
       objects (snd (rm Example.fs "s3://walrus/data/*" Example.world))
       = objects Example.world
       /\ objects (snd (du Example.fs "s3://walrus/data/*" Example.world))
          = objects Example.world))
  /\ fst (rm Example.fs "s3://walrus/nothing/*" Example.world) = Ok tt.
Proof.
  split.
  - apply (du_and_rm_fail_at_the_first_listed_key Example.fs "s3://walrus/data/*"
             Example.world "walrus" "data/" None); reflexivity.
  - reflexivity.
Defined.

(* ================================================================== *)
(** ** Further properties: [create_bucket] *)

Lemma request_unrecorded_answered {A} c (answer : M A) w a w' :
  answer (step w) = (Ok a, w') ->
  BotoMore.request_unrecorded c answer w = (Ok a, w').
Proof.
  intros H.
  assert (R : (Boto.others_act ;; answer) w = (Ok a, w')).
  { unfold bind. unfold step in H.
    destruct (Boto.others_act w) as [r w1] eqn:E.
    assert (r = Ok tt) as ->.
    { unfold Boto.others_act in E. destruct (schedule w); inversion E; reflexivity. }
    exact H. }
  unfold BotoMore.request_unrecorded. destruct (client_retry c).
  - apply attempt_ok. exact R.
  - exact R.
Qed.

Lemma create_bucket_run self b region w :
  boto3 w = true ->
  create_bucket self b region w
  = (Ok tt,
     BotoMore.with_bucket b (create_bucket_conf region)
       (step (logged (client_events self) w))).
Proof.
  intros H3. unfold create_bucket.
  rewrite (bind_ok _ _ _ _ _ (make_s3_client_run self None w H3)).
  unfold BotoMore.client_create_bucket.
  apply request_unrecorded_answered. reflexivity.
Qed.

Lemma region_for_create_bucket_conf region :
  region_for (create_bucket_conf region)
  = if Py.truthy region then match region with Some r => r | None => "" end
    else Parse._S3_REGION_WITH_NO_LOCATION_CONSTRAINT.
Proof.
  destruct region as [r|]; [|reflexivity].
  unfold create_bucket_conf.
  destruct (Py.truthy (Some r)) eqn:T; cbn [andb]; [|reflexivity].
  destruct (String.eqb r Parse._S3_REGION_WITH_NO_LOCATION_CONSTRAINT) eqn:E; cbn [negb].
  - apply String.eqb_eq in E. subst r. reflexivity.
  - rewrite region_for_cases, T. reflexivity.
Qed.

(** X19: [create_bucket(name, region)] and [get_bucket(name)] agree on the
    region: without an endpoint override, the bucket handle [get_bucket]
    returns after [create_bucket] goes to [region], and to the region with
    no location constraint when [region] is None, empty or that region
    itself (for which no constraint is sent). *)
Theorem create_bucket_then_get_bucket self b region w :
  Py.truthy (_s3_endpoint_url self) = false ->
  boto3 w = true ->
  fst (create_bucket self b region w) = Ok tt
  /\ fst (get_bucket self b (snd (create_bucket self b region w)))
     = Ok (bucket_through
             (plain_kwargs self
                (Some (if Py.truthy region
                       then match region with Some r => r | None => "" end
                       else Parse._S3_REGION_WITH_NO_LOCATION_CONSTRAINT)))
             b).
Proof.
  intros He H3. rewrite (create_bucket_run self b region w H3). cbn [fst snd].
  split; [reflexivity|].
  rewrite (get_bucket_located self b _ (create_bucket_conf region)).
  - cbn [fst]. rewrite (_client_kwargs_plain self _ He), region_for_create_bucket_conf.
    reflexivity.
  - unfold BotoMore.with_bucket. cbn [boto3].
    pose proof (step_same_service (logged (client_events self) w)) as (_ & Hs & _).
    rewrite Hs. exact H3.
  - unfold BotoMore.with_bucket. cbn [bucket_location]. rewrite String.eqb_refl.
    reflexivity.
Qed.

Lemma create_bucket_then_get_bucket_witness :
  fst (create_bucket Example2.fs_keys "lisbon" (Some "eu-west-3") Example.world) = Ok tt
  /\ fst (get_bucket Example2.fs_keys "lisbon"
            (snd (create_bucket Example2.fs_keys "lisbon" (Some "eu-west-3")
                    Example.world)))
     = Ok (bucket_through (plain_kwargs Example2.fs_keys (Some "eu-west-3")) "lisbon").
Proof.
  apply (create_bucket_then_get_bucket Example2.fs_keys "lisbon" (Some "eu-west-3")
           Example.world); reflexivity.
Defined.

(* ================================================================== *)
(** ** Further properties: [_endpoint_url] *)

Lemma is_uri_https h : Parse.is_uri ("https://" ++ h) = true.
Proof. reflexivity. Qed.

(** X20: [_endpoint_url] gives None, the empty string or a URI, and leaves
    its own results as they are; so the endpoint a filesystem hands to the
    client library is None or a URI, and it is one whenever the filesystem
    was made with a non-empty [s3_endpoint]. *)
Theorem endpoint_url_gives_a_uri host_or_uri :
  _endpoint_url (_endpoint_url host_or_uri) = _endpoint_url host_or_uri
  /\ (forall u, _endpoint_url host_or_uri = Some u -> u = "" \/ Parse.is_uri u = true)
  /\ (forall key secret token s3_region region,
        let kwargs :=
          _client_kwargs (__init__ key secret token host_or_uri s3_region) region in
        match endpoint_url kwargs with
        | Some u => Parse.is_uri u = true /\ Py.truthy host_or_uri = true
        | None => Py.truthy host_or_uri = false
        end).
Proof.
  assert (A : forall u, _endpoint_url host_or_uri = Some u ->
                        u = "" \/ Parse.is_uri u = true).
  { intros u. destruct host_or_uri as [[|x h]|]; cbn [_endpoint_url].
    - intros H. inversion H. left. reflexivity.
    - destruct (Parse.is_uri (String x h)) eqn:E; intros H; inversion H; right.
      + exact E.
      + apply is_uri_https.
    - discriminate. }
  split; [|split; [exact A|]].
  - destruct host_or_uri as [[|x h]|]; try reflexivity.
    cbn [_endpoint_url]. destruct (Parse.is_uri (String x h)) eqn:E.
    + cbn [_endpoint_url]. rewrite E. reflexivity.
    + change ("https://" ++ String x h) with (String "h" ("ttps://" ++ String x h)).
      cbn [_endpoint_url].
      change (String "h" ("ttps://" ++ String x h)) with ("https://" ++ String x h).
      rewrite is_uri_https. reflexivity.
  - intros key secret token s3_region region.
    unfold _client_kwargs, __init__. cbn [_s3_endpoint_url].
    destruct host_or_uri as [[|x h]|]; try reflexivity.
    cbn [_endpoint_url]. destruct (Parse.is_uri (String x h)) eqn:E.
    + cbn. split; [exact E|reflexivity].
    + cbn. split; reflexivity.
Qed.
